(** * Document-upload backend (Express + MongoDB): model and properties

    The repository is one Express application kept in several revisions:
    [src/server.js] (passkeys, status, feedback), [src/unnamed/part_001]
    (adds [category], a richer [/get-files] and [DELETE /delete-file/:id])
    and [src/unnamed/part_003] (adds [/delete-all-files] and a second,
    passkey-checking [DELETE /delete-file/:id]).

    Handlers are embedded as functions in a small state-and-exception
    monad over the [files] collection.  The MongoDB driver, BSON
    [ObjectId], multer and Express' router are libraries the handlers
    call; they are modelled here from their documented behaviour, and the
    [ObjectId] codec is kept abstract behind a class. *)

From Stdlib Require Import Strings.Byte Ascii ZArith.
From stdpp Require Import base decidable option list strings.

Local Open Scope string_scope.
Local Open Scope Z_scope.

(** ** Bytes and hexadecimal text *)

#[global] Instance byte_eq_dec : EqDecision byte := Byte.byte_eq_dec.

Definition hex_digit (n : N) : ascii :=
  match n with
  | 0 => "0" | 1 => "1" | 2 => "2" | 3 => "3" | 4 => "4" | 5 => "5"
  | 6 => "6" | 7 => "7" | 8 => "8" | 9 => "9" | 10 => "a" | 11 => "b"
  | 12 => "c" | 13 => "d" | 14 => "e" | _ => "f"
  end%N%char.

(** Value of one character of [[0-9a-fA-F]]. *)
Definition hex_value (c : ascii) : option N :=
  let n := N_of_ascii c in
  if ((48 <=? n) && (n <=? 57))%N then Some (n - 48)%N
  else if ((97 <=? n) && (n <=? 102))%N then Some (n - 87)%N
  else if ((65 <=? n) && (n <=? 70))%N then Some (n - 55)%N
  else None.

Definition hex_of_byte (b : byte) : string :=
  String (hex_digit (Byte.to_N b / 16)) (String (hex_digit (Byte.to_N b mod 16)) "").

Definition byte_of_hex (hi lo : ascii) : option byte :=
  h ← hex_value hi; l ← hex_value lo; Byte.of_N (16 * h + l).

Fixpoint hex_encode (l : list byte) : string :=
  match l with
  | [] => ""
  | b :: l => hex_of_byte b +:+ hex_encode l
  end.

Fixpoint hex_decode (s : string) : option (list byte) :=
  match s with
  | "" => Some []
  | String hi (String lo s) =>
      b ← byte_of_hex hi lo; l ← hex_decode s; Some (b :: l)
  | String _ "" => None
  end.

(** ** BSON ObjectId

    The handlers build ids with [new ObjectId(text)] (which throws on text
    that is not an id) and print them with [toString()] or through
    [res.json].  Only this interface is used, so it is a class; its laws
    are the driver's round trip of an id through its hexadecimal text. *)

Class BsonObjectId := {
  ObjectId : Type;
  ObjectId_eq_dec :: EqDecision ObjectId;
  (** [new ObjectId(s)]; [None] when the constructor throws. *)
  newObjectId : string → option ObjectId;
  (** [toHexString()], also used by [toString()] and [toJSON()]. *)
  toHexString : ObjectId → string;
}.

Class BsonObjectIdLaws `{BsonObjectId} : Prop := {
  new_toHexString : ∀ o, newObjectId (toHexString o) = Some o;
  toHexString_nonempty : ∀ o, toHexString o ≠ "";
}.

(** The usual instance: twelve bytes written as 24 hexadecimal digits,
    lower case on output, either case on input. *)
Module Hex24.

Definition t : Type := { l : list byte | length l = 12%nat }.

Definition to_hex (o : t) : string := hex_encode (`o).

Definition of_hex (s : string) : option t :=
  match hex_decode s with
  | Some l =>
      match decide (length l = 12%nat) with
      | left H => Some (l ↾ H)
      | right _ => None
      end
  | None => None
  end.

End Hex24.

#[global] Instance hex24_ObjectId : BsonObjectId := {|
  ObjectId := Hex24.t;
  newObjectId := Hex24.of_hex;
  toHexString := Hex24.to_hex;
|}.

(** ** JavaScript values that cross the HTTP boundary *)

(** A field of [req.body] or [req.params] is [undefined] or text.  Form
    fields and path parameters are text as they arrive; a JSON body can
    carry other values (numbers, arrays, objects), and requests that do
    are outside this model: every statement below is about requests whose
    body fields are text. *)
Definition Fields := list (string * string).

Fixpoint get (k : string) (o : Fields) : option string :=
  match o with
  | [] => None
  | (k', v) :: o => if decide (k' = k) then Some v else get k o
  end.

(** [truthy v] is the text of [v] when [!v] is false: [undefined] and the
    empty string are the falsy values a field can take. *)
Definition truthy (v : option string) : option string :=
  match v with
  | Some "" => None
  | Some s => Some s
  | None => None
  end.

#[local] Unset Elimination Schemes.
Inductive JSON :=
| JNull
| JBool (b : bool)
| JStr (s : string)
| JDate (t : Z)
| JArr (l : list JSON)
| JObj (o : list (string * JSON)).
#[local] Set Elimination Schemes.

(** [null] or text, as [feedback] is. *)
Definition JText (v : option string) : JSON :=
  match v with Some s => JStr s | None => JNull end.

Definition keys (j : JSON) : list string :=
  match j with JObj o => o.*1 | _ => [] end.

Fixpoint field (k : string) (o : list (string * JSON)) : option JSON :=
  match o with
  | [] => None
  | (k', v) :: o => if decide (k' = k) then Some v else field k o
  end.

Definition member (k : string) (j : JSON) : option JSON :=
  match j with JObj o => field k o | _ => None end.

Inductive Exn :=
| Error (message : string)
| BSONError
| DuplicateKey.

(** What a request ends in: [res.status(s).json(b)]; [res.set(h)] followed
    by [res.send(buffer)], with the headers as the handler gives them;
    [res.send(text)]; an error handed to Express ([next(err)]), which its
    default handler answers with 500; or no matching route. *)
Inductive Response :=
| json (code : Z) (body : JSON)
| send (headers : list (string * string)) (payload : list byte)
| send_text (text : string)
| next_err (e : Exn)
| no_route.

Definition status_code (r : Response) : Z :=
  match r with
  | json c _ => c
  | send _ _ | send_text _ => 200
  | next_err _ => 500
  | no_route => 404
  end.

Definition failure (m : string) : JSON :=
  JObj [("success", JBool false); ("message", JStr m)].

Definition success (m : string) : JSON :=
  JObj [("success", JBool true); ("message", JStr m)].

(** multer's description of an uploaded file. *)
Record File := {
  originalname : string;
  mimetype : string;
  buffer : list byte;
}.

(** The request as a handler sees it. *)
Record Request := {
  params : Fields;
  body : Fields;
  file : option File;
}.

Inductive Outcome (A : Type) :=
| Return (a : A)
| Throw (e : Exn).
Arguments Return {A} a.
Arguments Throw {A} e.

(** ** The [files] collection *)

Module FileDoc.
Section Fields.
Context {bson : BsonObjectId}.

Record t := {
  _id : ObjectId;
  filename : string;
  contentType : string;
  data : list byte;
  uploadedAt : Z;
  status : string;
  passkey : string;
  category : option string;   (* absent in documents written by server.js *)
  feedback : option string;   (* null or text *)
}.

#[global] Instance eq_dec : EqDecision t.
Proof. solve_decision. Defined.

End Fields.
End FileDoc.
Import FileDoc.
Abbreviation FileDoc := FileDoc.t.

Section Backend.
Context {bson : BsonObjectId}.

(** What a handler reads besides the request: the clock ([new Date()]) and
    the [_id] the driver generates for the next inserted document. *)
Record Env := {
  now : Z;
  generatedId : ObjectId;
}.

Definition Collection := list FileDoc.

(** Computations on the collection that return or throw. *)
Definition M (A : Type) : Type := Collection → Outcome A * Collection.

Definition ret {A} (a : A) : M A := λ c, (Return a, c).

Definition throw {A} (e : Exn) : M A := λ c, (Throw e, c).

Definition bind {A B} (m : M A) (k : A → M B) : M B :=
  λ c, match m c with
       | (Return a, c') => k a c'
       | (Throw e, c') => (Throw e, c')
       end.

Definition try_catch {A} (m : M A) (handler : Exn → M A) : M A :=
  λ c, match m c with
       | (Throw e, c') => handler e c'
       | r => r
       end.

(** [new ObjectId(x)] inside a handler: text is parsed, and the
    constructor throws on text that is not an id; for [undefined] the
    driver generates an id. *)
Definition new_ObjectId (env : Env) (x : option string) : M ObjectId :=
  match x with
  | Some s =>
      match newObjectId s with
      | Some o => ret o
      | None => throw BSONError
      end
  | None => ret (generatedId env)
  end.

(** Queries [{ _id: o }] and [{ passkey: p }]. *)
Definition by_id (o : ObjectId) (d : FileDoc) : bool := bool_decide (_id d = o).
Definition by_passkey (p : string) (d : FileDoc) : bool := bool_decide (passkey d = p).

(** [findOne(q)]: the first document, in natural order, that matches. *)
Definition findOne (q : FileDoc → bool) : M (option FileDoc) :=
  λ c, (Return (List.find q c), c).

(** [find({}).toArray()]. *)
Definition find_all : M (list FileDoc) := λ c, (Return c, c).

(** [insertOne(doc)]: the driver gives the document the generated [_id];
    the unique index on [_id] refuses an id that is already stored. *)
Definition insertOne (o : ObjectId) (doc : ObjectId → FileDoc) : M ObjectId :=
  λ c, if existsb (by_id o) c then (Throw DuplicateKey, c)
       else (Return o, (c ++ [doc o])%list).

Record UpdateResult := { matchedCount : Z; modifiedCount : Z }.

(** [updateOne(q, { $set: ... })]: the first match is rewritten;
    [modifiedCount] counts it only when the rewrite changed it. *)
Fixpoint update_first (q : FileDoc → bool) (set : FileDoc → FileDoc)
    (c : Collection) : UpdateResult * Collection :=
  match c with
  | [] => ({| matchedCount := 0; modifiedCount := 0 |}, [])
  | d :: c =>
      if q d then
        ({| matchedCount := 1;
            modifiedCount := if decide (set d = d) then 0 else 1 |},
         set d :: c)
      else let '(r, c') := update_first q set c in (r, d :: c')
  end.

Definition updateOne (q : FileDoc → bool) (set : FileDoc → FileDoc) : M UpdateResult :=
  λ c, let '(r, c') := update_first q set c in (Return r, c').

Record DeleteResult := { deletedCount : Z }.

Fixpoint delete_first (q : FileDoc → bool) (c : Collection) : DeleteResult * Collection :=
  match c with
  | [] => ({| deletedCount := 0 |}, [])
  | d :: c =>
      if q d then ({| deletedCount := 1 |}, c)
      else let '(r, c') := delete_first q c in (r, d :: c')
  end.

Definition deleteOne (q : FileDoc → bool) : M DeleteResult :=
  λ c, let '(r, c') := delete_first q c in (Return r, c').

(** [deleteMany({})]. *)
Definition deleteMany_all : M DeleteResult :=
  λ c, (Return {| deletedCount := Z.of_nat (length c) |}, []).

Definition set_status (s : string) (d : FileDoc) : FileDoc :=
  {| _id := _id d; filename := filename d; contentType := contentType d;
     data := data d; uploadedAt := uploadedAt d; status := s;
     passkey := passkey d; category := category d; feedback := feedback d |}.

Definition set_feedback (s : string) (d : FileDoc) : FileDoc :=
  {| _id := _id d; filename := filename d; contentType := contentType d;
     data := data d; uploadedAt := uploadedAt d; status := status d;
     passkey := passkey d; category := category d; feedback := Some s |}.

End Backend.

Notation "'let!' x := m 'in' k" := (bind m (λ x, k))
  (at level 10, x name, m at level 100, k at level 200, only parsing).

(** ** multer and Express' router *)

Section Middleware.
Context {bson : BsonObjectId}.

Definition Handler := Request → M Response.

(** [upload.single("resume")] with a [fileFilter]: the filter sees the
    uploaded file first; an error it reports goes to [next(err)] and the
    handler is not run; a file it declines is dropped; otherwise the file
    becomes [req.file]. *)
Definition upload_single (fileFilter : File → Exn + bool) (h : Handler) : Handler :=
  λ req,
    match file req with
    | None => h req
    | Some f =>
        match fileFilter f with
        | inl err => ret (next_err err)
        | inr true => h req
        | inr false => h {| params := params req; body := body req; file := None |}
        end
    end.

Inductive Method := GET | POST | DELETE.

#[global] Instance Method_eq_dec : EqDecision Method.
Proof. solve_decision. Defined.

Inductive Segment :=
| Lit (s : string)
| Param (name : string).

Record Route := {
  route_method : Method;
  route_path : list Segment;
  route_handler : Handler;
}.

(** Matching a path pattern such as [/file/:id] against the segments of a
    request path; the result is [req.params].  Literal segments are
    compared as written: the other spellings Express accepts for the same
    route (letter case, a trailing slash) are not modelled. *)
Fixpoint match_path (pat : list Segment) (path : list string) : option Fields :=
  match pat, path with
  | [], [] => Some []
  | Lit s :: pat, x :: path =>
      if decide (s = x) then match_path pat path else None
  | Param name :: pat, x :: path =>
      if decide (x = "") then None
      else ps ← match_path pat path; Some ((name, x) :: ps)
  | _, _ => None
  end.

(** A request as it reaches the application. *)
Record HttpRequest := {
  http_method : Method;
  http_path : list string;
  http_body : Fields;
  http_file : option File;
}.

(** Routes are tried in the order they were registered; the first whose
    method and path match handles the request, and a handler that never
    calls [next()] ends the search. *)
Fixpoint dispatch (app : list Route) (r : HttpRequest) : M Response :=
  match app with
  | [] => ret no_route
  | rt :: app =>
      match (if decide (route_method rt = http_method r)
             then match_path (route_path rt) (http_path r) else None) with
      | Some ps =>
          route_handler rt
            {| params := ps; body := http_body r; file := http_file r |}
      | None => dispatch app r
      end
  end.

End Middleware.

(** ** src/server.js *)

Module Server.
Section Handlers.
Context {bson : BsonObjectId}.

Definition fileFilter (file : File) : Exn + bool :=
  if decide (mimetype file = "application/pdf") then inr true
  else inl (Error "Only PDF files allowed").

Definition root (req : Request) : M Response :=
  ret (send_text "RUET VC Connect Backend is running...").

Definition submit_form (env : Env) (req : Request) : M Response :=
  match truthy (get "passkey" (body req)) with
  | None => ret (json 400 (failure "Passkey is required"))
  | Some passkey =>
      let! existingFile := findOne (by_passkey passkey) in
      match existingFile with
      | Some _ => ret (json 400 (failure "Passkey already in use. Choose another."))
      | None =>
          match file req with
          | None => ret (json 400 (failure "No file uploaded"))
          | Some f =>
              try_catch
                (let fileDoc := λ _id,
                   {| _id := _id;
                      filename := originalname f;
                      contentType := mimetype f;
                      data := buffer f;
                      uploadedAt := now env;
                      status := "under_processing";
                      passkey := passkey;
                      category := None;
                      feedback := None |} in
                 let! insertedId := insertOne (generatedId env) fileDoc in
                 ret (json 200 (JObj [("success", JBool true);
                                      ("fileId", JStr (toHexString insertedId))])))
                (λ error, ret (json 500 (failure "File upload failed")))
          end
      end
  end.

Definition serve (f : FileDoc) : Response :=
  send [("Content-Type", contentType f); ("Content-Disposition", "inline")] (data f).

Definition file_by_passkey (req : Request) : M Response :=
  try_catch
    (let! file :=
       match get "passkey" (params req) with
       | Some passkey => findOne (by_passkey passkey)
       | None => ret None   (* [{ passkey: undefined }] matches no upload *)
       end in
     match file with
     | None => ret (json 404 (failure "File not found"))
     | Some file => ret (serve file)
     end)
    (λ err, ret (json 500 (failure "Error fetching file"))).

Definition file_summary (file : FileDoc) : JSON :=
  JObj [("_id", JStr (toHexString (_id file)));
        ("filename", JStr (filename file));
        ("status", JStr (status file));
        ("passkey", JStr (passkey file));
        ("feedback", JText (feedback file))].

Definition get_files (req : Request) : M Response :=
  try_catch
    (let! files := find_all in
     let fileList := map file_summary files in
     ret (json 200 (JObj [("success", JBool true); ("files", JArr fileList)])))
    (λ err, ret (json 500 (failure "Error fetching files"))).

Definition update_status (env : Env) (req : Request) : M Response :=
  match truthy (get "id" (body req)), truthy (get "status" (body req)) with
  | Some id, Some status =>
      try_catch
        (let! oid := new_ObjectId env (Some id) in
         let! result := updateOne (by_id oid) (set_status status) in
         if decide (modifiedCount result = 0) then
           ret (json 404 (failure "File not found or status not updated"))
         else ret (json 200 (success "Status updated successfully")))
        (λ err, ret (json 500 (failure "Error updating status")))
  | _, _ => ret (json 400 (failure "Missing parameters"))
  end.

Definition submit_feedback (env : Env) (req : Request) : M Response :=
  match truthy (get "id" (body req)), truthy (get "feedback" (body req)) with
  | Some id, Some feedback =>
      try_catch
        (let! oid := new_ObjectId env (Some id) in
         let! result := updateOne (by_id oid) (set_feedback feedback) in
         if decide (modifiedCount result = 0) then
           ret (json 404 (failure "File not found or feedback not updated"))
         else ret (json 200 (success "Feedback submitted successfully")))
        (λ err, ret (json 500 (failure "Error submitting feedback")))
  | _, _ => ret (json 400 (failure "Missing parameters"))
  end.

Definition get_feedback (env : Env) (req : Request) : M Response :=
  match truthy (get "fileId" (body req)), truthy (get "passkey" (body req)) with
  | Some fileId, Some passkey =>
      try_catch
        (let! oid := new_ObjectId env (Some fileId) in
         let! file := findOne (by_id oid) in
         match file with
         | None => ret (json 404 (failure "File not found"))
         | Some file =>
             if decide (file.(FileDoc.passkey) ≠ passkey) then
               ret (json 403 (failure "Incorrect passkey"))
             else
               ret (json 200 (JObj [("success", JBool true);
                                    ("feedback",
                                     JStr (default "No feedback provided yet."
                                             (truthy (feedback file))))]))
         end)
        (λ err, ret (json 500 (failure "Error fetching feedback")))
  | _, _ => ret (json 400 (failure "Missing parameters"))
  end.

Definition file_by_id (env : Env) (req : Request) : M Response :=
  try_catch
    (let! oid := new_ObjectId env (get "id" (params req)) in
     let! file := findOne (by_id oid) in
     match file with
     | None => ret (json 404 (failure "File not found"))
     | Some file => ret (serve file)
     end)
    (λ err, ret (json 500 (failure "Error fetching file"))).

(** The routes, in the order the file registers them. *)
Definition app (env : Env) : list Route :=
  [ {| route_method := GET; route_path := [];
       route_handler := root |};
    {| route_method := POST; route_path := [Lit "submit-form"];
       route_handler := upload_single fileFilter (submit_form env) |};
    {| route_method := GET; route_path := [Lit "file"; Lit "passkey"; Param "passkey"];
       route_handler := file_by_passkey |};
    {| route_method := GET; route_path := [Lit "get-files"];
       route_handler := get_files |};
    {| route_method := POST; route_path := [Lit "update-status"];
       route_handler := update_status env |};
    {| route_method := POST; route_path := [Lit "submit-feedback"];
       route_handler := submit_feedback env |};
    {| route_method := POST; route_path := [Lit "get-feedback"];
       route_handler := get_feedback env |};
    {| route_method := GET; route_path := [Lit "file"; Param "id"];
       route_handler := file_by_id env |} ].

End Handlers.
End Server.

(** ** src/unnamed/part_001 (first file): categories, upload dates, deletion

    [/file/passkey/:passkey], [/update-status], [/submit-feedback] and
    [/get-feedback] have the text of server.js and are taken from there. *)

Module Part001.
Section Handlers.
Context {bson : BsonObjectId}.

Definition fileFilter (file : File) : Exn + bool :=
  if decide (mimetype file = "application/pdf") then inr true
  else inl (Error "Only PDF files are allowed").

Definition submit_form (env : Env) (req : Request) : M Response :=
  match truthy (get "passkey" (body req)), truthy (get "category" (body req)) with
  | Some passkey, Some category =>
      match file req with
      | None => ret (json 400 (failure "No PDF file uploaded"))
      | Some f =>
          let! existingFile := findOne (by_passkey passkey) in
          match existingFile with
          | Some _ => ret (json 400 (failure "Passkey already in use. Choose another."))
          | None =>
              try_catch
                (let fileDoc := λ _id,
                   {| _id := _id;
                      filename := originalname f;
                      contentType := mimetype f;
                      data := buffer f;
                      uploadedAt := now env;
                      status := "under_processing";
                      passkey := passkey;
                      category := Some category;
                      feedback := None |} in
                 let! insertedId := insertOne (generatedId env) fileDoc in
                 ret (json 200 (JObj [("success", JBool true);
                                      ("fileId", JStr (toHexString insertedId))])))
                (λ error, ret (json 500 (failure "File upload failed")))
          end
      end
  | _, _ => ret (json 400 (failure "Passkey and Category are required"))
  end.

Definition file_summary (file : FileDoc) : JSON :=
  JObj [("_id", JStr (toHexString (_id file)));
        ("filename", JStr (filename file));
        ("status", JStr (status file));
        ("passkey", JStr (passkey file));
        ("feedback", JText (feedback file));
        ("category", JStr (default "Uncategorized" (truthy (category file))));
        ("uploadDate", JDate (uploadedAt file))].

Definition get_files (req : Request) : M Response :=
  try_catch
    (let! files := find_all in
     let fileList := map file_summary files in
     ret (json 200 (JObj [("success", JBool true); ("files", JArr fileList)])))
    (λ err, ret (json 500 (failure "Error fetching files"))).

Definition delete_file (env : Env) (req : Request) : M Response :=
  try_catch
    (let fileId := get "id" (params req) in
     let! oid := new_ObjectId env fileId in
     let! result := deleteOne (by_id oid) in
     if decide (deletedCount result = 0) then
       ret (json 404 (failure "File not found"))
     else ret (json 200 (success "File deleted")))
    (λ err, ret (json 500 (failure "Error deleting file"))).

Definition app (env : Env) : list Route :=
  [ {| route_method := GET; route_path := [];
       route_handler := Server.root |};
    {| route_method := POST; route_path := [Lit "submit-form"];
       route_handler := upload_single fileFilter (submit_form env) |};
    {| route_method := GET; route_path := [Lit "file"; Lit "passkey"; Param "passkey"];
       route_handler := Server.file_by_passkey |};
    {| route_method := GET; route_path := [Lit "get-files"];
       route_handler := get_files |};
    {| route_method := POST; route_path := [Lit "update-status"];
       route_handler := Server.update_status env |};
    {| route_method := POST; route_path := [Lit "submit-feedback"];
       route_handler := Server.submit_feedback env |};
    {| route_method := POST; route_path := [Lit "get-feedback"];
       route_handler := Server.get_feedback env |};
    {| route_method := DELETE; route_path := [Lit "delete-file"; Param "id"];
       route_handler := delete_file env |} ].

End Handlers.
End Part001.

(** ** src/unnamed/part_003 (second file): delete-all and two handlers on
    [DELETE /delete-file/:id]

    The upload filter and [/submit-form] have the text of part_001; the
    review handlers and the two file routes that of server.js. *)

Module Part003.
Section Handlers.
Context {bson : BsonObjectId}.

Definition file_summary (file : FileDoc) : JSON :=
  JObj [("_id", JStr (toHexString (_id file)));
        ("filename", JStr (filename file));
        ("status", JStr (status file));
        ("passkey", JStr (passkey file));
        ("feedback", JText (feedback file));
        ("category", JStr (default "Uncategorized" (truthy (category file))))].

Definition get_files (req : Request) : M Response :=
  try_catch
    (let! files := find_all in
     let fileList := map file_summary files in
     ret (json 200 (JObj [("success", JBool true); ("files", JArr fileList)])))
    (λ err, ret (json 500 (failure "Error fetching files"))).

Definition delete_all_files (req : Request) : M Response :=
  try_catch
    (let! result := deleteMany_all in
     if decide (deletedCount result = 0) then
       ret (json 404 (failure "No files to delete"))
     else ret (json 200 (success "All files deleted successfully")))
    (λ err, ret (json 500 (failure "Error deleting files"))).

(** The first handler registered on [DELETE /delete-file/:id]. *)
Definition delete_file (env : Env) (req : Request) : M Response :=
  try_catch
    (let! oid := new_ObjectId env (get "id" (params req)) in
     let! result := deleteOne (by_id oid) in
     if decide (deletedCount result = 0) then
       ret (json 404 (failure "File not found or already deleted"))
     else ret (json 200 (success "File deleted successfully")))
    (λ err, ret (json 500 (failure "Error during file deletion"))).

(** The second handler registered on the same method and path,
    "DELETE File by ID (with Passkey Check)". *)
Definition delete_file_passkey (env : Env) (req : Request) : M Response :=
  let fileId := get "id" (params req) in
  match truthy (get "passkey" (body req)) with
  | None => ret (json 400 (failure "Passkey is required"))
  | Some passkey =>
      try_catch
        (let! oid := new_ObjectId env fileId in
         let! file := findOne (by_id oid) in
         match file with
         | None => ret (json 404 (failure "File not found"))
         | Some file =>
             if decide (file.(FileDoc.passkey) ≠ passkey) then
               ret (json 403 (failure "Invalid passkey. File not deleted."))
             else
               let! oid' := new_ObjectId env fileId in
               let! result := deleteOne (by_id oid') in
               if decide (deletedCount result = 0) then
                 ret (json 500 (failure "Failed to delete file"))
               else ret (json 200 (success "File deleted successfully"))
         end)
        (λ err, ret (json 500 (failure "Error during file deletion")))
  end.

Definition app (env : Env) : list Route :=
  [ {| route_method := GET; route_path := [];
       route_handler := Server.root |};
    {| route_method := POST; route_path := [Lit "submit-form"];
       route_handler := upload_single Part001.fileFilter (Part001.submit_form env) |};
    {| route_method := GET; route_path := [Lit "file"; Lit "passkey"; Param "passkey"];
       route_handler := Server.file_by_passkey |};
    {| route_method := GET; route_path := [Lit "get-files"];
       route_handler := get_files |};
    {| route_method := POST; route_path := [Lit "update-status"];
       route_handler := Server.update_status env |};
    {| route_method := POST; route_path := [Lit "submit-feedback"];
       route_handler := Server.submit_feedback env |};
    {| route_method := POST; route_path := [Lit "get-feedback"];
       route_handler := Server.get_feedback env |};
    {| route_method := GET; route_path := [Lit "file"; Param "id"];
       route_handler := Server.file_by_id env |};
    {| route_method := DELETE; route_path := [Lit "delete-all-files"];
       route_handler := delete_all_files |};
    {| route_method := DELETE; route_path := [Lit "delete-file"; Param "id"];
       route_handler := delete_file env |};
    {| route_method := DELETE; route_path := [Lit "delete-file"; Param "id"];
       route_handler := delete_file_passkey env |} ].

End Handlers.
End Part003.

(** ** Vocabulary of the statements *)

Section Vocabulary.
Context {bson : BsonObjectId}.

(** The two successful JSON replies that carry data. *)
Definition feedback_reply (text : string) : Response :=
  json 200 (JObj [("success", JBool true); ("feedback", JStr text)]).

Definition files_reply (fileList : list JSON) : Response :=
  json 200 (JObj [("success", JBool true); ("files", JArr fileList)]).

(** The record [d] with other payload bytes. *)
Definition with_data (bytes : list byte) (d : FileDoc) : FileDoc :=
  {| _id := _id d; filename := filename d; contentType := contentType d;
     data := bytes; uploadedAt := uploadedAt d; status := status d;
     passkey := passkey d; category := category d; feedback := feedback d |}.

(** The three revisions of the application. *)
Definition apps : list (Env → list Route) :=
  [Server.app; Part001.app; Part003.app].

(** Collections obtained from the empty one by serving requests (with
    text fields, as all requests of the model are), one after the other,
    each with its own clock reading and generated id. *)
Inductive reachable : Collection → Prop :=
| reachable_empty : reachable []
| reachable_request app env r c :
    app ∈ apps → reachable c → reachable (snd (dispatch (app env) r c)).

Definition preserves (P : FileDoc → Prop) (h : Handler) : Prop :=
  ∀ req c, Forall P c → Forall P (snd (h req c)).

End Vocabulary.

(** ** Sample data, with 24-digit hexadecimal ids *)

(** 65f1c0ffee0123456789abcd and 65f1c0ffee0123456789abce *)
Definition oid_a : Hex24.t :=
  [x65; xf1; xc0; xff; xee; x01; x23; x45; x67; x89; xab; xcd] ↾ eq_refl.
Definition oid_b : Hex24.t :=
  [x65; xf1; xc0; xff; xee; x01; x23; x45; x67; x89; xab; xce] ↾ eq_refl.

Definition env_a : Env := {| now := 1700000000000; generatedId := oid_a |}.
Definition env_b : Env := {| now := 1700000060000; generatedId := oid_b |}.

(** "%PDF" and "hi" *)
Definition resume : File :=
  {| originalname := "resume.pdf"; mimetype := "application/pdf";
     buffer := [x25; x50; x44; x46] |}.
Definition notes : File :=
  {| originalname := "notes.txt"; mimetype := "text/plain"; buffer := [x68; x69] |}.

Definition upload (f : File) (fields : Fields) : HttpRequest :=
  {| http_method := POST; http_path := ["submit-form"];
     http_body := fields; http_file := Some f |}.

Definition post (fields : Fields) : Request :=
  {| params := []; body := fields; file := None |}.

Definition fetch (method : Method) (path : list string) (fields : Fields) : HttpRequest :=
  {| http_method := method; http_path := path; http_body := fields; http_file := None |}.

(** What server.js stores for [resume] uploaded with passkey "abc123". *)
Definition stored : FileDoc :=
  {| _id := oid_a; filename := "resume.pdf"; contentType := "application/pdf";
     data := [x25; x50; x44; x46]; uploadedAt := 1700000000000;
     status := "under_processing"; passkey := "abc123";
     category := None; feedback := None |}.

(** The same upload through part_003, with category "CS". *)
Definition stored_cs : FileDoc :=
  {| _id := oid_a; filename := "resume.pdf"; contentType := "application/pdf";
     data := [x25; x50; x44; x46]; uploadedAt := 1700000000000;
     status := "under_processing"; passkey := "abc123";
     category := Some "CS"; feedback := None |}.

(** What server.js stores next for [resume] uploaded with passkey
    "xyz789", a minute later. *)
Definition stored_b : FileDoc :=
  {| _id := oid_b; filename := "resume.pdf"; contentType := "application/pdf";
     data := [x25; x50; x44; x46]; uploadedAt := 1700000060000;
     status := "under_processing"; passkey := "xyz789";
     category := None; feedback := None |}.

(** ** The connection globals (server.js, lines 14-34 and 200-205)

    [client], [db] and [filesCollection] start undefined; only whether
    each is set matters to the code. *)

Record Connection := {
  client : bool;
  db : bool;
  filesCollection : bool;
}.

Definition disconnected : Connection :=
  {| client := false; db := false; filesCollection := false |}.

(** How one attempt to connect goes: [new MongoClient(mongoURI)] throws,
    [client.connect()] rejects, or both succeed. *)
Inductive Attempt := ConstructorThrows | ConnectRejects | Connects.

#[global] Instance Attempt_eq_dec : EqDecision Attempt.
Proof. solve_decision. Defined.

(** [connectToMongoDB]: [client] is assigned before [connect()] is
    awaited, and the [catch] only logs. *)
Definition connectToMongoDB (a : Attempt) (s : Connection) : Connection :=
  if client s then s
  else
    match a with
    | ConstructorThrows => s
    | ConnectRejects =>
        {| client := true; db := db s; filesCollection := filesCollection s |}
    | Connects => {| client := true; db := true; filesCollection := true |}
    end.

(** The middleware in front of every route. *)
Definition ensure_connected (a : Attempt) (s : Connection) : Connection :=
  if negb (db s) || negb (filesCollection s) then connectToMongoDB a s else s.

(** The [listen] callback, then one middleware run per request; each run
    comes with how an attempt would go, were one made. *)
Definition connection_after (boot : Attempt) (requests : list Attempt) : Connection :=
  foldl (λ s a, ensure_connected a s) (connectToMongoDB boot disconnected) requests.

(** ** What a request can do to the collection *)

Section Effects.
Context {bson : BsonObjectId}.

(** The fields of a record that no handler assigns after the upload. *)
Definition core (d : FileDoc) :=
  (_id d, filename d, contentType d, data d, uploadedAt d, passkey d, category d).

(** [effect deletes c c']: [c'] is [c] unchanged, or with one uploaded
    record appended, or with the status or the feedback of the first
    record of some id set, or (when [deletes]) without the first record of
    some id, or empty. *)
Inductive effect (deletes : bool) (c : Collection) : Collection → Prop :=
| effect_none : effect deletes c c
| effect_insert d :
    Forall (λ d', _id d' ≠ _id d) c →
    Forall (λ d', passkey d' ≠ passkey d) c →
    passkey d ≠ "" → category d ≠ Some "" →
    contentType d = "application/pdf" →
    status d = "under_processing" → feedback d = None →
    effect deletes c (c ++ [d])%list
| effect_status o s :
    s ≠ "" → effect deletes c (snd (update_first (by_id o) (set_status s) c))
| effect_feedback o s :
    s ≠ "" → effect deletes c (snd (update_first (by_id o) (set_feedback s) c))
| effect_delete o :
    deletes = true → effect deletes c (snd (delete_first (by_id o) c))
| effect_delete_all :
    deletes = true → effect deletes c [].

Definition has_effect (deletes : bool) (h : Handler) : Prop :=
  ∀ req c, effect deletes c (snd (h req c)).

End Effects.

(** * Properties *)

(** ** The hexadecimal instance is an [ObjectId] *)

Lemma byte_of_hex_of_byte (b : byte) :
  byte_of_hex (hex_digit (Byte.to_N b / 16)) (hex_digit (Byte.to_N b mod 16)) = Some b.
Proof. destruct b; reflexivity. Qed.

Lemma hex_decode_encode (l : list byte) : hex_decode (hex_encode l) = Some l.
Proof.
  induction l as [|b l IH]; [done|].
  change (hex_decode (hex_encode (b :: l))) with
    (b' ← byte_of_hex (hex_digit (Byte.to_N b / 16)) (hex_digit (Byte.to_N b mod 16));
     l' ← hex_decode (hex_encode l); Some (b' :: l')).
  by rewrite byte_of_hex_of_byte, IH.
Qed.

Lemma Hex24_of_to (o : Hex24.t) : Hex24.of_hex (Hex24.to_hex o) = Some o.
Proof.
  destruct o as [l Hl]. unfold Hex24.of_hex, Hex24.to_hex. cbn [proj1_sig].
  rewrite hex_decode_encode. destruct (decide _) as [H|H]; [|done].
  f_equal. by apply (sig_eq_pi _).
Qed.

Lemma Hex24_to_nonempty (o : Hex24.t) : Hex24.to_hex o ≠ "".
Proof. destruct o as [[|b l] Hl]; [done|]. by cbn. Qed.

#[global] Instance hex24_laws : BsonObjectIdLaws.
Proof. split; [apply Hex24_of_to|apply Hex24_to_nonempty]. Qed.

(** ** The collection *)

Section Store.
Context {bson : BsonObjectId}.
Implicit Types (c : Collection) (d : FileDoc) (o : ObjectId) (q : FileDoc → bool).

Lemma find_none_Forall q c : List.find q c = None ↔ Forall (λ d, q d = false) c.
Proof.
  induction c as [|d c IH]; cbn; [by split; [constructor|]|].
  destruct (q d) eqn:E.
  - split; [done|]. inversion 1; congruence.
  - rewrite IH. split; [by constructor|by inversion 1].
Qed.

Lemma find_some_elem q c d : List.find q c = Some d → d ∈ c ∧ q d = true.
Proof.
  induction c as [|d' c IH]; cbn; [done|].
  destruct (q d') eqn:E.
  - intros [= <-]. split; [left|done].
  - intros H. destruct (IH H). split; [by right|done].
Qed.

Lemma by_id_true o d : by_id o d = true ↔ _id d = o.
Proof. unfold by_id. by rewrite bool_decide_eq_true. Qed.

Lemma by_id_false o d : by_id o d = false ↔ _id d ≠ o.
Proof. unfold by_id. by rewrite bool_decide_eq_false. Qed.

Lemma by_passkey_true p d : by_passkey p d = true ↔ passkey d = p.
Proof. unfold by_passkey. by rewrite bool_decide_eq_true. Qed.

Lemma by_passkey_false p d : by_passkey p d = false ↔ passkey d ≠ p.
Proof. unfold by_passkey. by rewrite bool_decide_eq_false. Qed.

Lemma find_by_id_none o c : List.find (by_id o) c = None ↔ Forall (λ d, _id d ≠ o) c.
Proof.
  rewrite find_none_Forall. apply Forall_proper; [|done].
  intros d. apply by_id_false.
Qed.

Lemma find_by_passkey_none p c :
  List.find (by_passkey p) c = None ↔ Forall (λ d, passkey d ≠ p) c.
Proof.
  rewrite find_none_Forall. apply Forall_proper; [|done].
  intros d. apply by_passkey_false.
Qed.

Lemma find_by_passkey_some p c :
  (∃ d, d ∈ c ∧ passkey d = p) → ∃ d, List.find (by_passkey p) c = Some d.
Proof.
  intros (d & Hd & Hp). destruct (List.find _ c) as [d'|] eqn:E; [by eexists|].
  apply find_by_passkey_none in E. rewrite Forall_forall in E.
  by destruct (E d Hd).
Qed.

Lemma existsb_by_id_false o c :
  Forall (λ d, _id d ≠ o) c → existsb (by_id o) c = false.
Proof.
  induction 1 as [|d c Hd _ IH]; cbn; [done|].
  rewrite IH. by apply by_id_false in Hd as ->.
Qed.

Lemma find_app_fresh q c d :
  List.find q c = None → q d = true → List.find q (c ++ [d]) = Some d.
Proof.
  induction c as [|d' c IH]; cbn; [by intros _ ->|].
  destruct (q d'); [done|]. auto.
Qed.

End Store.

(** ** Routing in server.js *)

Section ServerRoutes.
Context {bson : BsonObjectId}.
Implicit Types (c : Collection) (d : FileDoc) (r : HttpRequest) (env : Env).

Lemma dispatch_submit_form env r :
  http_method r = POST → http_path r = ["submit-form"] →
  dispatch (Server.app env) r =
    upload_single Server.fileFilter (Server.submit_form env)
      {| params := []; body := http_body r; file := http_file r |}.
Proof. destruct r as [m p b f]; cbn. by intros -> ->. Qed.

Lemma dispatch_file_by_id env r x :
  http_method r = GET → http_path r = ["file"; x] → x ≠ "" →
  dispatch (Server.app env) r =
    Server.file_by_id env
      {| params := [("id", x)]; body := http_body r; file := http_file r |}.
Proof.
  destruct r as [m p b f]; cbn. intros -> -> Hx.
  cbn. repeat (case_decide; try done).
Qed.

Lemma upload_single_pdf (h : Handler) (req : Request) f :
  file req = Some f → mimetype f = "application/pdf" →
  upload_single Server.fileFilter h req = h req.
Proof.
  intros Hf Hm. unfold upload_single, Server.fileFilter.
  rewrite Hf. by rewrite decide_True.
Qed.

Lemma upload_single_rejected (h : Handler) (req : Request) f c :
  file req = Some f → mimetype f ≠ "application/pdf" →
  upload_single Server.fileFilter h req c =
    (Return (next_err (Error "Only PDF files allowed")), c).
Proof.
  intros Hf Hm. unfold upload_single, Server.fileFilter.
  rewrite Hf. by rewrite decide_False.
Qed.


End ServerRoutes.

(** ** Store, then fetch *)

Section RoundTrip.
Context {bson : BsonObjectId} {laws : BsonObjectIdLaws}.
Implicit Types (c : Collection) (d : FileDoc) (r : HttpRequest) (env : Env).


End RoundTrip.

(** ** Uploads: the PDF filter and the passkey check *)

Section Uploads.
Context {bson : BsonObjectId}.
Implicit Types (c : Collection) (d : FileDoc) (r : HttpRequest) (env : Env).

Lemma submit_form_conflict env req p c :
  truthy (get "passkey" (body req)) = Some p →
  (∃ d, d ∈ c ∧ passkey d = p) →
  Server.submit_form env req c =
    (Return (json 400 (failure "Passkey already in use. Choose another.")), c).
Proof.
  intros Hkey Hex. apply find_by_passkey_some in Hex as [d Hd].
  unfold Server.submit_form, bind, findOne. by rewrite Hkey, Hd.
Qed.

(** C6.  An upload whose declared content type is not "application/pdf"
    is refused by the upload filter with its error ("Only PDF files
    allowed"), the handler is not run, and the collection is left as it
    was: nothing is inserted. *)
Theorem non_pdf_upload_rejected env r f c :
  http_method r = POST → http_path r = ["submit-form"] →
  http_file r = Some f → mimetype f ≠ "application/pdf" →
  dispatch (Server.app env) r c =
    (Return (next_err (Error "Only PDF files allowed")), c).
Proof.
  intros Hm Hp Hf Hmime. rewrite dispatch_submit_form by done.
  by apply (upload_single_rejected _ _ f).
Qed.

(** C2, as the code has it.  When a stored record already has passkey
    [p], a [POST /submit-form] carrying [p] never changes the collection;
    it is answered 400 "Passkey already in use" whenever the request gets
    past the upload filter, that is when it has no file or a PDF. *)
Theorem duplicate_passkey_conflict env r p c :
  http_method r = POST → http_path r = ["submit-form"] →
  truthy (get "passkey" (http_body r)) = Some p →
  (∃ d, d ∈ c ∧ passkey d = p) →
  snd (dispatch (Server.app env) r c) = c ∧
  ((∀ f, http_file r = Some f → mimetype f = "application/pdf") →
   dispatch (Server.app env) r c =
     (Return (json 400 (failure "Passkey already in use. Choose another.")), c)).
Proof.
  intros Hm Hp Hkey Hex. rewrite dispatch_submit_form by done.
  destruct (http_file r) as [f|] eqn:Hf.
  - destruct (decide (mimetype f = "application/pdf")) as [Hpdf|Hpdf].
    + rewrite (upload_single_pdf _ _ f) by done.
      rewrite (submit_form_conflict env _ p) by done. done.
    + rewrite (upload_single_rejected _ _ f) by done.
      split; [done|]. intros H. by destruct Hpdf, (H f).
  - unfold upload_single; cbn [file].
    rewrite (submit_form_conflict env _ p) by done. done.
Qed.

End Uploads.

(** ** Updates and deletions in the collection *)

Section StoreUpdates.
Context {bson : BsonObjectId}.
Implicit Types (c : Collection) (d : FileDoc) (o : ObjectId) (q : FileDoc → bool).

Lemma update_first_none q set c :
  List.find q c = None →
  update_first q set c = ({| matchedCount := 0; modifiedCount := 0 |}, c).
Proof.
  induction c as [|d c IH]; cbn; [done|].
  destruct (q d); [done|]. intros H. by rewrite IH.
Qed.

Lemma update_first_some q set c d :
  List.find q c = Some d →
  fst (update_first q set c) =
    {| matchedCount := 1; modifiedCount := if decide (set d = d) then 0 else 1 |}.
Proof.
  induction c as [|d' c IH]; cbn; [done|].
  destruct (q d') eqn:E; [by intros [= ->]|].
  intros H. specialize (IH H). by destruct (update_first q set c).
Qed.

Lemma update_first_unchanged q set c d :
  List.find q c = Some d → set d = d → snd (update_first q set c) = c.
Proof.
  induction c as [|d' c IH]; cbn; [done|].
  destruct (q d') eqn:E.
  - intros [= ->] ->. done.
  - intros H Hs. specialize (IH H Hs). destruct (update_first q set c).
    cbn in *. by subst.
Qed.

Lemma update_first_find q set c d :
  List.find q c = Some d → q (set d) = true →
  List.find q (snd (update_first q set c)) = Some (set d).
Proof.
  induction c as [|d' c IH]; cbn; [done|].
  destruct (q d') eqn:E.
  - intros [= ->] Hq. cbn. by rewrite Hq.
  - intros H Hq. specialize (IH H Hq). destruct (update_first q set c).
    cbn in *. by rewrite E.
Qed.

Lemma update_first_Forall (P : FileDoc → Prop) q set c :
  (∀ d, P d → P (set d)) → Forall P c → Forall P (snd (update_first q set c)).
Proof.
  intros Hset. induction 1 as [|d c Hd Hc IH]; cbn; [done|].
  destruct (q d).
  - cbn. constructor; auto.
  - destruct (update_first q set c). cbn in *. by constructor.
Qed.

Lemma delete_first_none q c :
  List.find q c = None → delete_first q c = ({| deletedCount := 0 |}, c).
Proof.
  induction c as [|d c IH]; cbn; [done|].
  destruct (q d); [done|]. intros H. by rewrite IH.
Qed.

Lemma delete_first_some q c d :
  List.find q c = Some d → fst (delete_first q c) = {| deletedCount := 1 |}.
Proof.
  induction c as [|d' c IH]; cbn; [done|].
  destruct (q d') eqn:E; [done|].
  intros H. specialize (IH H). by destruct (delete_first q c).
Qed.

Lemma delete_first_Forall (P : FileDoc → Prop) q c :
  Forall P c → Forall P (snd (delete_first q c)).
Proof.
  induction 1 as [|d c Hd Hc IH]; cbn; [done|].
  destruct (q d); [done|].
  destruct (delete_first q c). cbn in *. by constructor.
Qed.

Lemma set_status_fixed s d : set_status s d = d ↔ status d = s.
Proof.
  destruct d; unfold set_status; cbn. split; [by intros [= ->]|by intros ->].
Qed.

Lemma set_feedback_fixed s d : set_feedback s d = d ↔ feedback d = Some s.
Proof.
  destruct d; unfold set_feedback; cbn. split; [by intros [= <-]|by intros ->].
Qed.

End StoreUpdates.

(** ** Review handlers: status and feedback *)

Section Review.
Context {bson : BsonObjectId}.
Implicit Types (c : Collection) (d : FileDoc) (o : ObjectId) (env : Env) (req : Request).

Lemma update_status_run env req id st o c :
  truthy (get "id" (body req)) = Some id →
  truthy (get "status" (body req)) = Some st →
  newObjectId id = Some o →
  Server.update_status env req c =
    (Return (if decide (modifiedCount (fst (update_first (by_id o) (set_status st) c)) = 0)
             then json 404 (failure "File not found or status not updated")
             else json 200 (success "Status updated successfully")),
     snd (update_first (by_id o) (set_status st) c)).
Proof.
  intros Hid Hst Ho.
  unfold Server.update_status, try_catch, bind, new_ObjectId, updateOne, ret.
  rewrite Hid, Hst, Ho. destruct (update_first _ _ c) as [u c']; cbn.
  by case_decide.
Qed.

Lemma submit_feedback_run env req id fb o c :
  truthy (get "id" (body req)) = Some id →
  truthy (get "feedback" (body req)) = Some fb →
  newObjectId id = Some o →
  Server.submit_feedback env req c =
    (Return (if decide (modifiedCount (fst (update_first (by_id o) (set_feedback fb) c)) = 0)
             then json 404 (failure "File not found or feedback not updated")
             else json 200 (success "Feedback submitted successfully")),
     snd (update_first (by_id o) (set_feedback fb) c)).
Proof.
  intros Hid Hfb Ho.
  unfold Server.submit_feedback, try_catch, bind, new_ObjectId, updateOne, ret.
  rewrite Hid, Hfb, Ho. destruct (update_first _ _ c) as [u c']; cbn.
  by case_decide.
Qed.

(** What [updateOne({ _id: o }, { $set })] reports and leaves behind, for
    a [$set] that keeps the id. *)
Lemma update_by_id_cases (set : FileDoc → FileDoc) o c :
  (∀ d, _id (set d) = _id d) →
  let u := update_first (by_id o) set c in
  (modifiedCount (fst u) = 0 ↔
     Forall (λ d, _id d ≠ o) c ∨ ∃ d, List.find (by_id o) c = Some d ∧ set d = d) ∧
  (modifiedCount (fst u) = 0 → snd u = c) ∧
  (∀ d, List.find (by_id o) c = Some d →
     List.find (by_id o) (snd u) = Some (set d)).
Proof.
  intros Hset u. subst u.
  destruct (List.find (by_id o) c) as [d|] eqn:Hfind.
  - rewrite (update_first_some _ _ _ d Hfind). cbn.
    split; [|split].
    + case_decide as Hfix.
      * split; [|done]. intros _. right. by exists d.
      * split; [done|]. intros [Hno|(d' & [= <-] & ?)]; [|done].
        apply find_by_id_none in Hno. congruence.
    + case_decide as Hfix; [|done]. intros _. by apply (update_first_unchanged _ _ _ d).
    + intros d' [= <-]. apply update_first_find; [done|].
      apply by_id_true. rewrite Hset. apply find_some_elem in Hfind as [_ Hq].
      by apply by_id_true.
  - rewrite update_first_none by done. cbn.
    split; [|split; [done|done]].
    split; [|done]. intros _. left. by apply find_by_id_none.
Qed.

(** C3, as the code has it.  With [id] and the new value both present and
    [id] the text of an ObjectId, [/update-status] answers 404 exactly
    when the update modified no record: no record has that id, or the
    record already has that status.  Otherwise it answers 200 and the
    record carries the new status; the status text itself is not
    inspected.  [/submit-feedback] does the same on [feedback]. *)
Theorem review_update_404_iff_unmodified env rs rf id o v c :
  truthy (get "id" (body rs)) = Some id →
  truthy (get "status" (body rs)) = Some v →
  truthy (get "id" (body rf)) = Some id →
  truthy (get "feedback" (body rf)) = Some v →
  newObjectId id = Some o →
  let s := Server.update_status env rs c in
  let f := Server.submit_feedback env rf c in
  ((fst s = Return (json 404 (failure "File not found or status not updated")) ↔
      Forall (λ d, _id d ≠ o) c ∨ ∃ d, List.find (by_id o) c = Some d ∧ status d = v) ∧
   (fst s = Return (json 404 (failure "File not found or status not updated")) → snd s = c) ∧
   (∀ d, List.find (by_id o) c = Some d → status d ≠ v →
      fst s = Return (json 200 (success "Status updated successfully")) ∧
      List.find (by_id o) (snd s) = Some (set_status v d))) ∧
  ((fst f = Return (json 404 (failure "File not found or feedback not updated")) ↔
      Forall (λ d, _id d ≠ o) c ∨ ∃ d, List.find (by_id o) c = Some d ∧ feedback d = Some v) ∧
   (fst f = Return (json 404 (failure "File not found or feedback not updated")) → snd f = c) ∧
   (∀ d, List.find (by_id o) c = Some d → feedback d ≠ Some v →
      fst f = Return (json 200 (success "Feedback submitted successfully")) ∧
      List.find (by_id o) (snd f) = Some (set_feedback v d))).
Proof.
  intros Hids Hst Hidf Hfb Ho s f. subst s f.
  rewrite (update_status_run env rs id v o) by done.
  rewrite (submit_feedback_run env rf id v o) by done.
  split.
  - destruct (update_by_id_cases (set_status v) o c) as (Hiff & Hsame & Hfind); [done|].
    cbn [fst snd] in *. split; [|split].
    + case_decide as Hm.
      * split; [intros _|done]. apply Hiff in Hm as [?|(d & ? & ?%set_status_fixed)]; eauto.
      * split; [done|]. intros H. destruct Hm. apply Hiff.
        destruct H as [?|(d & ? & ?%set_status_fixed)]; eauto.
    + case_decide; [auto|done].
    + intros d Hd Hne. split; [|auto]. case_decide as Hm; [|done].
      apply Hiff in Hm as [Hno|(d' & Hd' & Hfix%set_status_fixed)].
      * apply find_by_id_none in Hno. congruence.
      * congruence.
  - destruct (update_by_id_cases (set_feedback v) o c) as (Hiff & Hsame & Hfind); [done|].
    cbn [fst snd] in *. split; [|split].
    + case_decide as Hm.
      * split; [intros _|done]. apply Hiff in Hm as [?|(d & ? & ?%set_feedback_fixed)]; eauto.
      * split; [done|]. intros H. destruct Hm. apply Hiff.
        destruct H as [?|(d & ? & ?%set_feedback_fixed)]; eauto.
    + case_decide; [auto|done].
    + intros d Hd Hne. split; [|auto]. case_decide as Hm; [|done].
      apply Hiff in Hm as [Hno|(d' & Hd' & Hfix%set_feedback_fixed)].
      * apply find_by_id_none in Hno. congruence.
      * congruence.
Qed.

End Review.

(** ** Reading feedback and files *)

Section Reads.
Context {bson : BsonObjectId}.
Implicit Types (c : Collection) (d : FileDoc) (o : ObjectId) (env : Env) (req : Request).

Lemma get_feedback_missing env req c :
  truthy (get "fileId" (body req)) = None ∨ truthy (get "passkey" (body req)) = None →
  Server.get_feedback env req c = (Return (json 400 (failure "Missing parameters")), c).
Proof.
  unfold Server.get_feedback. intros [->| ->]; [done|].
  by destruct (truthy (get "fileId" _)).
Qed.

Lemma get_feedback_run env req x p c :
  truthy (get "fileId" (body req)) = Some x →
  truthy (get "passkey" (body req)) = Some p →
  Server.get_feedback env req c =
    (Return
       match newObjectId x with
       | None => json 500 (failure "Error fetching feedback")
       | Some o =>
           match List.find (by_id o) c with
           | None => json 404 (failure "File not found")
           | Some d =>
               if decide (passkey d ≠ p) then json 403 (failure "Incorrect passkey")
               else feedback_reply (default "No feedback provided yet." (truthy (feedback d)))
           end
       end, c).
Proof.
  intros Hx Hp.
  unfold Server.get_feedback, try_catch, bind, new_ObjectId, findOne, ret, throw.
  rewrite Hx, Hp. destruct (newObjectId x) as [o|]; [|done].
  destruct (List.find _ c) as [d|]; [|done]. by case_decide.
Qed.

(** C4, as the code has it.  [POST /get-feedback] never changes the
    collection and answers, in this order: 400 when [fileId] or [passkey]
    is missing; 500 when [fileId] is not the text of an ObjectId; 404 when
    no record has that id; 403 when the record's passkey differs from the
    one supplied; otherwise 200 with the stored feedback when that is a
    non-empty text, and with "No feedback provided yet." when the stored
    feedback is null or the empty string. *)
Theorem get_feedback_outcome env req c :
  let reply := Server.get_feedback env req c in
  snd reply = c ∧
  (truthy (get "fileId" (body req)) = None ∨ truthy (get "passkey" (body req)) = None →
   fst reply = Return (json 400 (failure "Missing parameters"))) ∧
  (∀ x p,
     truthy (get "fileId" (body req)) = Some x →
     truthy (get "passkey" (body req)) = Some p →
     (newObjectId x = None →
      fst reply = Return (json 500 (failure "Error fetching feedback"))) ∧
     (∀ o, newObjectId x = Some o →
        (Forall (λ d, _id d ≠ o) c →
         fst reply = Return (json 404 (failure "File not found"))) ∧
        (∀ d, List.find (by_id o) c = Some d →
           (passkey d ≠ p →
            fst reply = Return (json 403 (failure "Incorrect passkey"))) ∧
           (passkey d = p → feedback d = None ∨ feedback d = Some "" →
            fst reply = Return (feedback_reply "No feedback provided yet.")) ∧
           (∀ text, passkey d = p → feedback d = Some text → text ≠ "" →
              fst reply = Return (feedback_reply text))))).
Proof.
  intros reply. subst reply.
  destruct (truthy (get "fileId" (body req))) as [x|] eqn:Hx;
    [destruct (truthy (get "passkey" (body req))) as [p|] eqn:Hp|].
  - rewrite (get_feedback_run env req x p) by done. cbn [fst snd].
    split; [done|]. split; [by intros [|]|].
    intros ? ? [= <-] [= <-]. split.
    + by intros ->.
    + intros o ->. split.
      * intros Hno. by apply find_by_id_none in Hno as ->.
      * intros d ->. split; [|split].
        -- intros Hne. by rewrite decide_True.
        -- intros He [-> | ->]; by rewrite decide_False by auto.
        -- intros text He -> Htext. rewrite decide_False by auto.
           by destruct text.
  - rewrite get_feedback_missing by (by right). cbn. split; [done|]. split; [done|].
    by intros.
  - rewrite get_feedback_missing by (by left). cbn. split; [done|]. split; [done|].
    by intros.
Qed.

Lemma file_by_id_run env req x c :
  get "id" (params req) = Some x →
  Server.file_by_id env req c =
    (Return
       match newObjectId x with
       | None => json 500 (failure "Error fetching file")
       | Some o =>
           match List.find (by_id o) c with
           | None => json 404 (failure "File not found")
           | Some d => Server.serve d
           end
       end, c).
Proof.
  intros Hx.
  unfold Server.file_by_id, try_catch, bind, new_ObjectId, findOne, ret, throw.
  rewrite Hx. destruct (newObjectId x) as [o|]; [|done].
  by destruct (List.find _ c) as [d|].
Qed.

(** C7, as the code has it.  [GET /file/:id] never changes the
    collection.  When the path identifier is not the text of an ObjectId
    the constructor throws and the handler's [catch] answers 500 "Error
    fetching file"; when it is one and no record has it the answer is 404;
    otherwise the record's bytes are sent with its content type and
    [Content-Disposition: inline]. *)
Theorem file_by_id_outcome env (r : HttpRequest) x c :
  http_method r = GET → http_path r = ["file"; x] → x ≠ "" →
  let reply := dispatch (Server.app env) r c in
  snd reply = c ∧
  (newObjectId x = None →
   fst reply = Return (json 500 (failure "Error fetching file"))) ∧
  (∀ o, newObjectId x = Some o →
     (Forall (λ d, _id d ≠ o) c →
      fst reply = Return (json 404 (failure "File not found"))) ∧
     (∀ d, List.find (by_id o) c = Some d →
        fst reply =
          Return (send [("Content-Type", contentType d); ("Content-Disposition", "inline")]
                    (data d)))).
Proof.
  intros Hm Hp Hx reply. subst reply.
  rewrite (dispatch_file_by_id env r x) by done.
  rewrite (file_by_id_run env _ x) by done. cbn [fst snd].
  split; [done|]. split; [by intros ->|].
  intros o ->. split.
  - intros Hno. by apply find_by_id_none in Hno as ->.
  - by intros d ->.
Qed.

End Reads.

(** ** Listing *)

Section Listing.
Context {bson : BsonObjectId}.
Implicit Types (c : Collection) (d : FileDoc) (req : Request).

(** C8, as the code has it.  [GET /get-files] answers with one summary per
    stored record, in order, and leaves the collection alone.  In
    server.js a summary has exactly [_id], [filename], [status],
    [passkey] and [feedback]; in part_001 it has these and [category]
    ("Uncategorized" when the record has none) and [uploadDate], the
    record's [uploadedAt].  Neither has a [data] member, and neither
    changes when the record's payload bytes do. *)
Theorem get_files_projection req c :
  (Server.get_files req c = (Return (files_reply (map Server.file_summary c)), c) ∧
   Part001.get_files req c = (Return (files_reply (map Part001.file_summary c)), c)) ∧
  ∀ d,
    let s := Server.file_summary d in
    let s' := Part001.file_summary d in
    (keys s = ["_id"; "filename"; "status"; "passkey"; "feedback"] ∧
     keys s' = ["_id"; "filename"; "status"; "passkey"; "feedback";
                "category"; "uploadDate"]) ∧
    (∀ k, k ∈ keys s → member k s' = member k s) ∧
    (member "_id" s = Some (JStr (toHexString (_id d))) ∧
     member "filename" s = Some (JStr (filename d)) ∧
     member "status" s = Some (JStr (status d)) ∧
     member "passkey" s = Some (JStr (passkey d)) ∧
     member "feedback" s = Some (JText (feedback d))) ∧
    (member "category" s' =
       Some (JStr match category d with
                  | None | Some "" => "Uncategorized"
                  | Some text => text
                  end) ∧
     member "uploadDate" s' = Some (JDate (uploadedAt d))) ∧
    (member "data" s = None ∧ member "data" s' = None) ∧
    ∀ bytes,
      Server.file_summary (with_data bytes d) = s ∧
      Part001.file_summary (with_data bytes d) = s'.
Proof.
  split; [done|]. intros d s s'. subst s s'.
  split; [done|]. split.
  { intros k Hk. cbn in Hk.
    repeat (apply elem_of_cons in Hk as [->|Hk]; [reflexivity|]).
    by apply elem_of_nil in Hk. }
  split; [done|]. split; [|done].
  split; [|done]. cbn. by destruct (category d) as [[|??]|].
Qed.

End Listing.

(** ** Everything the applications can make of the collection *)

Section Reachable.
Context {bson : BsonObjectId}.
Implicit Types (c : Collection) (d : FileDoc) (env : Env) (req : Request).

Lemma dispatch_preserves (P : FileDoc → Prop) (app : list Route) :
  Forall (λ rt, preserves P (route_handler rt)) app →
  ∀ r c, Forall P c → Forall P (snd (dispatch app r c)).
Proof.
  induction 1 as [|rt app Hrt _ IH]; intros r c Hc; cbn; [done|].
  destruct (if decide _ then _ else _); [by apply Hrt|by apply IH].
Qed.

Lemma truthy_Some v s : truthy v = Some s → v = Some s ∧ s ≠ "".
Proof. by destruct v as [[|??]|]; intros [= <-]. Qed.

Ltac run :=
  unfold try_catch, bind, new_ObjectId, findOne, find_all, updateOne, deleteOne,
    deleteMany_all, insertOne, ret, throw in *.

Ltac read_only := intros ? c Hc; run; repeat case_match; by simplify_eq/=.

Section Preserved.
Variable P : FileDoc → Prop.
Hypothesis P_set_status : ∀ s d, P d → P (set_status s d).
Hypothesis P_set_feedback : ∀ s d, s ≠ "" → P d → P (set_feedback s d).
Hypothesis P_uploaded :
  ∀ o name bytes t pk cat,
    pk ≠ "" →
    P {| _id := o; filename := name; contentType := "application/pdf";
         data := bytes; uploadedAt := t; status := "under_processing";
         passkey := pk; category := cat; feedback := None |}.

Lemma root_preserves : preserves P Server.root.
Proof. by intros ? c Hc. Qed.

Lemma file_by_passkey_preserves : preserves P Server.file_by_passkey.
Proof. unfold Server.file_by_passkey. read_only. Qed.

Lemma file_by_id_preserves env : preserves P (Server.file_by_id env).
Proof. unfold Server.file_by_id. read_only. Qed.

Lemma get_feedback_preserves env : preserves P (Server.get_feedback env).
Proof. unfold Server.get_feedback. read_only. Qed.

Lemma get_files_preserves :
  preserves P Server.get_files ∧ preserves P Part001.get_files ∧
  preserves P Part003.get_files.
Proof. by repeat split; intros ? c Hc. Qed.

Lemma updateOne_preserves (set : FileDoc → FileDoc) q c :
  (∀ d, P d → P (set d)) → Forall P c → Forall P (snd (updateOne q set c)).
Proof.
  intros Hset Hc. unfold updateOne.
  pose proof (update_first_Forall P q set c Hset Hc) as H.
  by destruct (update_first q set c).
Qed.

Lemma deleteOne_preserves q c : Forall P c → Forall P (snd (deleteOne q c)).
Proof.
  intros Hc. unfold deleteOne.
  pose proof (delete_first_Forall P q c Hc) as H.
  by destruct (delete_first q c).
Qed.

Ltac delete_step c Hc :=
  match goal with
  | |- context [deleteOne ?q c] =>
      let H := fresh in
      pose proof (deleteOne_preserves q c Hc) as H;
      destruct (deleteOne q c) as [[?|?] ?]; [|done]; by case_decide
  end.

Lemma update_status_preserves env : preserves P (Server.update_status env).
Proof.
  intros req c Hc. unfold Server.update_status.
  destruct (truthy (get "id" _)) as [id|]; [|done].
  destruct (truthy (get "status" _)) as [st|]; [|done].
  unfold try_catch, bind, new_ObjectId, ret, throw.
  destruct (newObjectId id) as [o|]; [|done].
  pose proof (updateOne_preserves (set_status st) (by_id o) c (P_set_status st) Hc) as H.
  destruct (updateOne _ _ c) as [[u|e] c']; [|done]. by case_decide.
Qed.

Lemma submit_feedback_preserves env : preserves P (Server.submit_feedback env).
Proof.
  intros req c Hc. unfold Server.submit_feedback.
  destruct (truthy (get "id" _)) as [id|]; [|done].
  destruct (truthy (get "feedback" _)) as [fb|] eqn:Hfb; [|done].
  apply truthy_Some in Hfb as [_ Hfb].
  unfold try_catch, bind, new_ObjectId, ret, throw.
  destruct (newObjectId id) as [o|]; [|done].
  pose proof (updateOne_preserves (set_feedback fb) (by_id o) c (λ d, P_set_feedback fb d Hfb) Hc) as H.
  destruct (updateOne _ _ c) as [[u|e] c']; [|done]. by case_decide.
Qed.

Lemma server_upload_preserves env :
  preserves P (upload_single Server.fileFilter (Server.submit_form env)).
Proof.
  intros req c Hc. unfold upload_single, Server.fileFilter.
  destruct (file req) as [f|] eqn:Hf.
  - case_decide as Hpdf; [|done].
    unfold Server.submit_form. rewrite Hf.
    destruct (truthy (get "passkey" _)) as [pk|] eqn:Hpk; [|done].
    apply truthy_Some in Hpk as [_ Hpk]. run.
    destruct (List.find _ c); [done|].
    destruct (existsb _ c); [done|]. cbn.
    apply Forall_app. split; [done|]. apply Forall_singleton.
    rewrite Hpdf. by apply P_uploaded.
  - unfold Server.submit_form. rewrite Hf. run. by repeat case_match.
Qed.

Lemma part001_upload_preserves env :
  preserves P (upload_single Part001.fileFilter (Part001.submit_form env)).
Proof.
  intros req c Hc. unfold upload_single, Part001.fileFilter.
  destruct (file req) as [f|] eqn:Hf.
  - case_decide as Hpdf; [|done].
    unfold Part001.submit_form. rewrite Hf.
    destruct (truthy (get "passkey" _)) as [pk|] eqn:Hpk; [|done].
    apply truthy_Some in Hpk as [_ Hpk].
    destruct (truthy (get "category" _)) as [cat|]; [|done]. run.
    destruct (List.find _ c); [done|].
    destruct (existsb _ c); [done|]. cbn.
    apply Forall_app. split; [done|]. apply Forall_singleton.
    rewrite Hpdf. by apply P_uploaded.
  - unfold Part001.submit_form. rewrite Hf. by repeat case_match.
Qed.

Lemma delete_file_preserves env :
  preserves P (Part001.delete_file env) ∧ preserves P (Part003.delete_file env).
Proof.
  split; intros req c Hc.
  - unfold Part001.delete_file, try_catch, bind, new_ObjectId, ret, throw.
    destruct (get "id" _) as [x|]; [destruct (newObjectId x) as [o|]; [|done]|].
    all: delete_step c Hc.
  - unfold Part003.delete_file, try_catch, bind, new_ObjectId, ret, throw.
    destruct (get "id" _) as [x|]; [destruct (newObjectId x) as [o|]; [|done]|].
    all: delete_step c Hc.
Qed.

Lemma delete_file_passkey_preserves env : preserves P (Part003.delete_file_passkey env).
Proof.
  intros req c Hc. unfold Part003.delete_file_passkey.
  destruct (truthy (get "passkey" _)) as [pk|]; [|done].
  unfold try_catch, bind, new_ObjectId, findOne, ret, throw.
  destruct (get "id" _) as [x|]; [destruct (newObjectId x) as [o|]; [|done]|].
  all: destruct (List.find _ c); [|done].
  all: case_decide; [done|].
  all: delete_step c Hc.
Qed.

Lemma delete_all_files_preserves : preserves P Part003.delete_all_files.
Proof.
  intros req c Hc. unfold Part003.delete_all_files. run. by case_decide.
Qed.

Lemma apps_preserve app env :
  app ∈ apps → Forall (λ rt, preserves P (route_handler rt)) (app env).
Proof.
  pose proof get_files_preserves as (? & ? & ?).
  pose proof (delete_file_preserves env) as [? ?].
  unfold apps. intros Happ.
  repeat (apply elem_of_cons in Happ as [->|Happ]);
    [..|by apply elem_of_nil in Happ];
    repeat constructor; cbn [route_handler];
    auto using root_preserves, file_by_passkey_preserves, file_by_id_preserves,
      get_feedback_preserves, update_status_preserves, submit_feedback_preserves,
      server_upload_preserves, part001_upload_preserves,
      delete_file_passkey_preserves, delete_all_files_preserves.
Qed.

Lemma reachable_Forall c : reachable c → Forall P c.
Proof.
  induction 1 as [|app env r c Happ _ IH]; [constructor|].
  apply dispatch_preserves; [by apply apps_preserve|done].
Qed.

End Preserved.
End Reachable.

(** ** Invariants of the stored records *)

Section Invariants.
Context {bson : BsonObjectId}.
Implicit Types (c : Collection) (d : FileDoc) (env : Env) (req : Request).

(** C9.  Every request to any revision of the application keeps "all
    stored records have content type application/pdf", so every record of
    every collection the applications can produce has that content type:
    uploads insert only what passed the PDF filter, and status updates,
    feedback updates and deletions leave [contentType] alone. *)
Theorem content_type_is_pdf :
  (∀ app env r c,
     app ∈ apps →
     Forall (λ d, contentType d = "application/pdf") c →
     Forall (λ d, contentType d = "application/pdf") (snd (dispatch (app env) r c))) ∧
  (∀ s d, contentType (set_status s d) = contentType d ∧
          contentType (set_feedback s d) = contentType d) ∧
  (∀ c, reachable c → Forall (λ d, contentType d = "application/pdf") c).
Proof.
  split; [|split]; [|done|].
  - intros app env r c Happ. apply dispatch_preserves. by apply apps_preserve.
  - intros c. by apply reachable_Forall.
Qed.

(** C10.  [/get-feedback] answers "No feedback provided yet." for a
    record whose stored feedback is null and equally for one whose stored
    feedback is the empty string; [/submit-feedback] answers a present but
    empty [feedback] with 400 and stores nothing; and no record the
    applications can produce has the empty string as feedback. *)
Theorem empty_feedback_reads_as_none env :
  (∀ req x p o d c,
     truthy (get "fileId" (body req)) = Some x →
     truthy (get "passkey" (body req)) = Some p →
     newObjectId x = Some o →
     List.find (by_id o) c = Some d → passkey d = p →
     feedback d = None ∨ feedback d = Some "" →
     Server.get_feedback env req c =
       (Return (feedback_reply "No feedback provided yet."), c)) ∧
  (∀ req c,
     get "feedback" (body req) = Some "" →
     Server.submit_feedback env req c =
       (Return (json 400 (failure "Missing parameters")), c)) ∧
  (∀ c, reachable c → Forall (λ d, feedback d ≠ Some "") c).
Proof.
  split; [|split].
  - intros req x p o d c Hx Hp Ho Hd Hpk Hfb.
    rewrite (get_feedback_run env req x p) by done. rewrite Ho, Hd.
    rewrite decide_False by auto. by destruct Hfb as [-> | ->].
  - intros req c Hfb. unfold Server.submit_feedback. rewrite Hfb.
    by destruct (truthy (get "id" _)).
  - intros c. apply reachable_Forall; [done| |done].
    intros s d Hs _. cbn. congruence.
Qed.

End Invariants.

(** ** The two handlers of [DELETE /delete-file/:id] in part_003 *)

Section Deletion.
Context {bson : BsonObjectId}.
Implicit Types (c : Collection) (d : FileDoc) (env : Env) (req : Request).

(** Run on its own, the passkey-checking handler keeps the record when
    the passkey is wrong. *)
Lemma delete_file_passkey_forbidden env req x p o d c :
  get "id" (params req) = Some x → newObjectId x = Some o →
  truthy (get "passkey" (body req)) = Some p →
  List.find (by_id o) c = Some d → passkey d ≠ p →
  Part003.delete_file_passkey env req c =
    (Return (json 403 (failure "Invalid passkey. File not deleted.")), c).
Proof.
  intros Hx Ho Hp Hd Hne.
  unfold Part003.delete_file_passkey, try_catch, bind, new_ObjectId, findOne, ret.
  rewrite Hp, Hx, Ho, Hd. by rewrite decide_True.
Qed.

Lemma delete_file_passkey_not_found env req x p o c :
  get "id" (params req) = Some x → newObjectId x = Some o →
  truthy (get "passkey" (body req)) = Some p →
  Forall (λ d, _id d ≠ o) c →
  Part003.delete_file_passkey env req c =
    (Return (json 404 (failure "File not found")), c).
Proof.
  intros Hx Ho Hp Hno. apply find_by_id_none in Hno.
  unfold Part003.delete_file_passkey, try_catch, bind, new_ObjectId, findOne, ret.
  by rewrite Hp, Hx, Ho, Hno.
Qed.

(** The application never runs it: the handler registered first on the
    same method and path answers every such request. *)
Lemma dispatch_delete_file env (r : HttpRequest) x :
  http_method r = DELETE → http_path r = ["delete-file"; x] → x ≠ "" →
  dispatch (Part003.app env) r =
    Part003.delete_file env
      {| params := [("id", x)]; body := http_body r; file := http_file r |}.
Proof.
  destruct r as [m p b f]; cbn. intros -> -> Hx.
  cbn. repeat (case_decide; try done).
Qed.

Lemma delete_file_deletes env req x o d c :
  get "id" (params req) = Some x → newObjectId x = Some o →
  List.find (by_id o) c = Some d →
  Part003.delete_file env req c =
    (Return (json 200 (success "File deleted successfully")),
     snd (delete_first (by_id o) c)).
Proof.
  intros Hx Ho Hd.
  unfold Part003.delete_file, try_catch, bind, new_ObjectId, deleteOne, ret.
  rewrite Hx, Ho. pose proof (delete_first_some _ _ _ Hd) as Hn.
  destruct (delete_first _ c) as [n c']. cbn in *. by subst.
Qed.

End Deletion.

(** * Concrete runs *)

Lemma stored_by_upload :
  dispatch (Server.app env_a) (upload resume [("passkey", "abc123")]) [] =
    (Return (json 200 (JObj [("success", JBool true);
                             ("fileId", JStr "65f1c0ffee0123456789abcd")])),
     [stored]).
Proof. vm_compute. reflexivity. Qed.

Lemma stored_cs_by_upload :
  dispatch (Part003.app env_a)
    (upload resume [("passkey", "abc123"); ("category", "CS")]) [] =
    (Return (json 200 (JObj [("success", JBool true);
                             ("fileId", JStr "65f1c0ffee0123456789abcd")])),
     [stored_cs]).
Proof. vm_compute. reflexivity. Qed.

Lemma stored_reachable : reachable [stored].
Proof.
  change [stored] with
    (snd (dispatch (Server.app env_a) (upload resume [("passkey", "abc123")]) [])).
  apply reachable_request; [left|constructor].
Qed.


(** C6 at [notes], a text/plain upload. *)
Lemma non_pdf_upload_rejected_witness :
  dispatch (Server.app env_b) (upload notes [("passkey", "xyz789")]) [stored] =
    (Return (next_err (Error "Only PDF files allowed")), [stored]).
Proof.
  apply (non_pdf_upload_rejected env_b _ notes); try reflexivity.
  vm_compute. discriminate.
Defined.

(** C2 fails as stated: "abc123" is taken, and a second upload with it
    whose file is text/plain is answered by the upload filter's error
    (status 500 from Express), not by the 400 "Passkey already in use". *)
Lemma duplicate_passkey_non_pdf_not_conflict :
  (∃ d, d ∈ [stored] ∧ passkey d = "abc123") ∧
  dispatch (Server.app env_b) (upload notes [("passkey", "abc123")]) [stored] =
    (Return (next_err (Error "Only PDF files allowed")), [stored]) ∧
  status_code (next_err (Error "Only PDF files allowed")) = 500 ∧
  next_err (Error "Only PDF files allowed") ≠
    json 400 (failure "Passkey already in use. Choose another.").
Proof.
  split; [|split; [|split]].
  - exists stored. split; [left|reflexivity].
  - vm_compute. reflexivity.
  - reflexivity.
  - discriminate.
Qed.

(** C2 as amended, at a second PDF upload with the taken passkey. *)
Lemma duplicate_passkey_conflict_witness :
  snd (dispatch (Server.app env_b) (upload resume [("passkey", "abc123")]) [stored]) = [stored] ∧
  ((∀ f, http_file (upload resume [("passkey", "abc123")]) = Some f →
         mimetype f = "application/pdf") →
   dispatch (Server.app env_b) (upload resume [("passkey", "abc123")]) [stored] =
     (Return (json 400 (failure "Passkey already in use. Choose another.")), [stored])).
Proof.
  apply (duplicate_passkey_conflict env_b _ "abc123"); try reflexivity.
  exists stored. split; [left|reflexivity].
Defined.

(** C3 fails as stated: the record exists, and setting its status to the
    value it already has is answered 404. *)
Lemma update_status_same_value_not_found :
  List.find (by_id oid_a) [stored] = Some stored ∧
  newObjectId "65f1c0ffee0123456789abcd" = Some oid_a ∧
  Server.update_status env_b
    (post [("id", "65f1c0ffee0123456789abcd"); ("status", "under_processing")])
    [stored] =
    (Return (json 404 (failure "File not found or status not updated")), [stored]).
Proof. repeat split; vm_compute; reflexivity. Qed.

(** C3 as amended, at status and feedback "approved" for [stored]. *)
Lemma review_update_404_iff_unmodified_witness :
  fst (Server.update_status env_b
         (post [("id", "65f1c0ffee0123456789abcd"); ("status", "approved")]) [stored]) =
    Return (json 200 (success "Status updated successfully")) ∧
  fst (Server.submit_feedback env_b
         (post [("id", "65f1c0ffee0123456789abcd"); ("feedback", "approved")]) [stored]) =
    Return (json 200 (success "Feedback submitted successfully")).
Proof.
  assert (Hid : newObjectId "65f1c0ffee0123456789abcd" = Some oid_a)
    by (vm_compute; reflexivity).
  assert (Hfind : List.find (by_id oid_a) [stored] = Some stored)
    by (vm_compute; reflexivity).
  destruct (review_update_404_iff_unmodified env_b
              (post [("id", "65f1c0ffee0123456789abcd"); ("status", "approved")])
              (post [("id", "65f1c0ffee0123456789abcd"); ("feedback", "approved")])
              "65f1c0ffee0123456789abcd" oid_a "approved" [stored]
              eq_refl eq_refl eq_refl eq_refl Hid)
    as [(_ & _ & Hs) (_ & _ & Hf)].
  split.
  - apply (Hs stored Hfind). discriminate.
  - apply (Hf stored Hfind). discriminate.
Defined.

(** C4 fails as stated: both fields are present and no record has the id
    "zzz", yet the answer is 500, not 404. *)
Lemma get_feedback_malformed_id_is_500 :
  truthy (get "fileId" [("fileId", "zzz"); ("passkey", "abc123")]) = Some "zzz" ∧
  truthy (get "passkey" [("fileId", "zzz"); ("passkey", "abc123")]) = Some "abc123" ∧
  Forall (λ d, toHexString (_id d) ≠ "zzz") [stored] ∧
  Server.get_feedback env_b (post [("fileId", "zzz"); ("passkey", "abc123")]) [stored] =
    (Return (json 500 (failure "Error fetching feedback")), [stored]).
Proof.
  repeat split; try (vm_compute; reflexivity).
  repeat constructor. vm_compute. discriminate.
Qed.

(** C4 as amended, at the right id and passkey for [stored], whose
    feedback is null. *)
Lemma get_feedback_outcome_witness :
  fst (Server.get_feedback env_b
         (post [("fileId", "65f1c0ffee0123456789abcd"); ("passkey", "abc123")]) [stored]) =
    Return (feedback_reply "No feedback provided yet.").
Proof.
  destruct (get_feedback_outcome env_b
              (post [("fileId", "65f1c0ffee0123456789abcd"); ("passkey", "abc123")])
              [stored]) as (_ & _ & H).
  assert (Hid : newObjectId "65f1c0ffee0123456789abcd" = Some oid_a)
    by (vm_compute; reflexivity).
  assert (Hfind : List.find (by_id oid_a) [stored] = Some stored)
    by (vm_compute; reflexivity).
  destruct (H "65f1c0ffee0123456789abcd" "abc123" eq_refl eq_refl) as [_ Ho].
  destruct (Ho oid_a Hid) as [_ Hd].
  destruct (Hd stored Hfind) as (_ & Hnull & _).
  apply Hnull; [reflexivity|left; reflexivity].
Defined.

(** C7 fails as stated: "zzz" is not the text of an ObjectId, and
    [GET /file/zzz] is answered 500, not 400. *)
Lemma file_by_id_malformed_is_500 :
  newObjectId "zzz" = None ∧
  dispatch (Server.app env_b) (fetch GET ["file"; "zzz"] []) [stored] =
    (Return (json 500 (failure "Error fetching file")), [stored]) ∧
  status_code (json 500 (failure "Error fetching file")) ≠ 400.
Proof. repeat split; try (vm_compute; reflexivity). discriminate. Qed.

(** C7 as amended, at the id of [stored]. *)
Lemma file_by_id_outcome_witness :
  fst (dispatch (Server.app env_b)
         (fetch GET ["file"; "65f1c0ffee0123456789abcd"] []) [stored]) =
    Return (send [("Content-Type", "application/pdf"); ("Content-Disposition", "inline")]
              [x25; x50; x44; x46]).
Proof.
  assert (Hx : "65f1c0ffee0123456789abcd" ≠ "") by discriminate.
  destruct (file_by_id_outcome env_b
              (fetch GET ["file"; "65f1c0ffee0123456789abcd"] [])
              "65f1c0ffee0123456789abcd" [stored] eq_refl eq_refl Hx) as (_ & _ & H).
  assert (Hid : newObjectId "65f1c0ffee0123456789abcd" = Some oid_a)
    by (vm_compute; reflexivity).
  assert (Hfind : List.find (by_id oid_a) [stored] = Some stored)
    by (vm_compute; reflexivity).
  destruct (H oid_a Hid) as [_ Hd].
  exact (Hd stored Hfind).
Defined.

(** C8 fails as stated: the summary server.js returns for [stored] has
    five members, with no category and no upload date among them. *)
Lemma server_get_files_has_five_members :
  Server.get_files (post []) [stored] =
    (Return (files_reply
               [JObj [("_id", JStr "65f1c0ffee0123456789abcd");
                      ("filename", JStr "resume.pdf");
                      ("status", JStr "under_processing");
                      ("passkey", JStr "abc123");
                      ("feedback", JNull)]]),
     [stored]) ∧
  member "category" (Server.file_summary stored) = None ∧
  member "uploadedAt" (Server.file_summary stored) = None ∧
  member "uploadDate" (Server.file_summary stored) = None.
Proof. repeat split; vm_compute; reflexivity. Qed.

(** C8 as amended, at [stored]. *)
Lemma get_files_projection_witness :
  Server.get_files (post []) [stored] =
    (Return (files_reply (map Server.file_summary [stored])), [stored]) ∧
  member "category" (Part001.file_summary stored) = Some (JStr "Uncategorized") ∧
  member "data" (Part001.file_summary stored) = None.
Proof.
  destruct (get_files_projection (post []) [stored]) as [[Hs _] H].
  destruct (H stored) as (_ & _ & _ & [Hcat _] & [_ Hdata] & _).
  split; [exact Hs|]. split; [exact Hcat|exact Hdata].
Defined.

(** C9 at the collection holding [stored]. *)
Lemma content_type_is_pdf_witness :
  Forall (λ d, contentType d = "application/pdf") [stored].
Proof.
  destruct (@content_type_is_pdf hex24_ObjectId) as (_ & _ & H).
  apply H. exact stored_reachable.
Defined.

(** C10 at [stored], whose feedback is null. *)
Lemma empty_feedback_reads_as_none_witness :
  Server.get_feedback env_b
    (post [("fileId", "65f1c0ffee0123456789abcd"); ("passkey", "abc123")]) [stored] =
    (Return (feedback_reply "No feedback provided yet."), [stored]) ∧
  Server.submit_feedback env_b
    (post [("id", "65f1c0ffee0123456789abcd"); ("feedback", "")]) [stored] =
    (Return (json 400 (failure "Missing parameters")), [stored]) ∧
  Forall (λ d, feedback d ≠ Some "") [stored].
Proof.
  destruct (empty_feedback_reads_as_none env_b) as (Hget & Hsub & Hinv).
  split; [|split].
  - apply (Hget _ "65f1c0ffee0123456789abcd" "abc123" oid_a stored);
      try (vm_compute; reflexivity). by left.
  - apply Hsub. reflexivity.
  - apply Hinv. exact stored_reachable.
Defined.

(** The scenario of the specification, through part_001: upload with
    passkey "abc123" and category "CS", approve, list, give feedback, read
    the feedback back. *)
Example upload_review_scenario :
  let id := "65f1c0ffee0123456789abcd" in
  let c1 := snd (dispatch (Part001.app env_a)
                   (upload resume [("passkey", "abc123"); ("category", "CS")]) []) in
  let c2 := snd (dispatch (Part001.app env_b)
                   (fetch POST ["update-status"] [("id", id); ("status", "approved")]) c1) in
  let c3 := snd (dispatch (Part001.app env_b)
                   (fetch POST ["submit-feedback"] [("id", id); ("feedback", "Good work")]) c2) in
  c1 = [stored_cs] ∧
  fst (dispatch (Part001.app env_b) (fetch GET ["get-files"] []) c2) =
    Return (files_reply
              [JObj [("_id", JStr id); ("filename", JStr "resume.pdf");
                     ("status", JStr "approved"); ("passkey", JStr "abc123");
                     ("feedback", JNull); ("category", JStr "CS");
                     ("uploadDate", JDate 1700000000000)]]) ∧
  fst (dispatch (Part001.app env_b)
         (fetch POST ["get-feedback"] [("fileId", id); ("passkey", "abc123")]) c3) =
    Return (feedback_reply "Good work").
Proof. repeat split; vm_compute; reflexivity. Qed.

(** C5.  In part_003 a [DELETE /delete-file/<id of stored_cs>] with the
    wrong passkey deletes the record and is answered 200: the request is
    served by the handler registered first, which checks no passkey.  The
    passkey-checking handler, had it been run on the same request, would
    have answered 403 and kept the record. *)
Theorem part003_delete_ignores_passkey :
  passkey stored_cs ≠ "wrong" ∧
  dispatch (Part003.app env_b)
    (fetch DELETE ["delete-file"; "65f1c0ffee0123456789abcd"] [("passkey", "wrong")])
    [stored_cs] =
    (Return (json 200 (success "File deleted successfully")), []) ∧
  Part003.delete_file_passkey env_b
    {| params := [("id", "65f1c0ffee0123456789abcd")];
       body := [("passkey", "wrong")]; file := None |}
    [stored_cs] =
    (Return (json 403 (failure "Invalid passkey. File not deleted.")), [stored_cs]).
Proof.
  split; [discriminate|]. split.
  - rewrite (dispatch_delete_file env_b _ "65f1c0ffee0123456789abcd") by done.
    by rewrite (delete_file_deletes env_b _ "65f1c0ffee0123456789abcd" oid_a stored_cs).
  - by apply (delete_file_passkey_forbidden env_b _ "65f1c0ffee0123456789abcd" "wrong" oid_a stored_cs).
Qed.

(** * Further properties of the handlers *)

(** ** What one request does to the collection *)

Section RequestEffects.
Context {bson : BsonObjectId}.
Implicit Types (c : Collection) (d : FileDoc) (env : Env) (req : Request).

Ltac ops :=
  unfold try_catch, bind, new_ObjectId, findOne, find_all, updateOne, deleteOne,
    deleteMany_all, insertOne, ret, throw in *.

Ltac no_effect := intros ? c; ops; repeat case_match; simplify_eq/=; apply effect_none.

Lemma dispatch_has_effect deletes (app : list Route) :
  Forall (λ rt, has_effect deletes (route_handler rt)) app →
  ∀ r c, effect deletes c (snd (dispatch app r c)).
Proof.
  induction 1 as [|rt app Hrt _ IH]; intros r c; cbn; [apply effect_none|].
  destruct (if decide _ then _ else _); [apply Hrt|apply IH].
Qed.

Lemma effect_weaken c c' : effect false c c' → effect true c c'.
Proof. destruct 1; try discriminate; by econstructor. Qed.

Lemma read_handlers_effect deletes env :
  has_effect deletes Server.root ∧ has_effect deletes Server.file_by_passkey ∧
  has_effect deletes (Server.file_by_id env) ∧
  has_effect deletes (Server.get_feedback env) ∧
  has_effect deletes Server.get_files ∧ has_effect deletes Part001.get_files ∧
  has_effect deletes Part003.get_files.
Proof.
  repeat split.
  - intros ? c. apply effect_none.
  - unfold Server.file_by_passkey. no_effect.
  - unfold Server.file_by_id. no_effect.
  - unfold Server.get_feedback. no_effect.
  - intros ? c. apply effect_none.
  - intros ? c. apply effect_none.
  - intros ? c. apply effect_none.
Qed.

Lemma update_status_effect deletes env : has_effect deletes (Server.update_status env).
Proof.
  intros req c. unfold Server.update_status.
  destruct (truthy (get "id" _)) as [id|]; [|apply effect_none].
  destruct (truthy (get "status" _)) as [st|] eqn:Hst; [|apply effect_none].
  apply truthy_Some in Hst as [_ Hst]. ops.
  destruct (newObjectId id) as [o|]; [|apply effect_none].
  pose proof (effect_status deletes c o st Hst) as H.
  destruct (update_first _ _ c) as [u c']. cbn in *. by case_decide.
Qed.

Lemma submit_feedback_effect deletes env :
  has_effect deletes (Server.submit_feedback env).
Proof.
  intros req c. unfold Server.submit_feedback.
  destruct (truthy (get "id" _)) as [id|]; [|apply effect_none].
  destruct (truthy (get "feedback" _)) as [fb|] eqn:Hfb; [|apply effect_none].
  apply truthy_Some in Hfb as [_ Hfb]. ops.
  destruct (newObjectId id) as [o|]; [|apply effect_none].
  pose proof (effect_feedback deletes c o fb Hfb) as H.
  destruct (update_first _ _ c) as [u c']. cbn in *. by case_decide.
Qed.

Lemma existsb_by_id_false_inv o c :
  existsb (by_id o) c = false → Forall (λ d, _id d ≠ o) c.
Proof.
  induction c as [|d c IH]; cbn; [constructor|].
  intros [Hd Hc]%orb_false_iff. constructor; [by apply by_id_false|auto].
Qed.

Lemma server_upload_effect deletes env :
  has_effect deletes (upload_single Server.fileFilter (Server.submit_form env)).
Proof.
  intros req c. unfold upload_single, Server.fileFilter.
  destruct (file req) as [f|] eqn:Hf.
  - case_decide as Hpdf; [|apply effect_none].
    unfold Server.submit_form. rewrite Hf.
    destruct (truthy (get "passkey" _)) as [pk|] eqn:Hpk; [|apply effect_none].
    apply truthy_Some in Hpk as [_ Hpk]. ops.
    destruct (List.find _ c) eqn:Hfind; [apply effect_none|].
    destruct (existsb _ c) eqn:Hid; [apply effect_none|]. cbn.
    apply effect_insert; cbn; try done.
    + by apply existsb_by_id_false_inv.
    + by apply find_by_passkey_none.
  - unfold Server.submit_form. rewrite Hf. ops.
    repeat case_match; simplify_eq/=; apply effect_none.
Qed.

Lemma part001_upload_effect deletes env :
  has_effect deletes (upload_single Part001.fileFilter (Part001.submit_form env)).
Proof.
  intros req c. unfold upload_single, Part001.fileFilter.
  destruct (file req) as [f|] eqn:Hf.
  - case_decide as Hpdf; [|apply effect_none].
    unfold Part001.submit_form. rewrite Hf.
    destruct (truthy (get "passkey" _)) as [pk|] eqn:Hpk; [|apply effect_none].
    apply truthy_Some in Hpk as [_ Hpk].
    destruct (truthy (get "category" _)) as [cat|] eqn:Hcat; [|apply effect_none].
    apply truthy_Some in Hcat as [_ Hcat]. ops.
    destruct (List.find _ c) eqn:Hfind; [apply effect_none|].
    destruct (existsb _ c) eqn:Hid; [apply effect_none|]. cbn.
    apply effect_insert; cbn; try done.
    + by apply existsb_by_id_false_inv.
    + by apply find_by_passkey_none.
    + congruence.
  - unfold Part001.submit_form. rewrite Hf.
    repeat case_match; simplify_eq/=; apply effect_none.
Qed.

Ltac delete_effect c :=
  match goal with
  | |- context [delete_first (by_id ?o) c] =>
      let H := fresh in
      pose proof (effect_delete true c o eq_refl) as H;
      destruct (delete_first (by_id o) c) as [? ?]; cbn in *; by case_decide
  end.

Lemma delete_handlers_effect env :
  has_effect true (Part001.delete_file env) ∧
  has_effect true (Part003.delete_file env) ∧
  has_effect true (Part003.delete_file_passkey env) ∧
  has_effect true Part003.delete_all_files.
Proof.
  repeat split; intros req c.
  - unfold Part001.delete_file. ops.
    destruct (get "id" _) as [x|]; [destruct (newObjectId x) as [o|]; [|apply effect_none]|].
    all: delete_effect c.
  - unfold Part003.delete_file. ops.
    destruct (get "id" _) as [x|]; [destruct (newObjectId x) as [o|]; [|apply effect_none]|].
    all: delete_effect c.
  - unfold Part003.delete_file_passkey.
    destruct (truthy (get "passkey" _)) as [pk|]; [|apply effect_none]. ops.
    destruct (get "id" _) as [x|]; [destruct (newObjectId x) as [o|]; [|apply effect_none]|].
    all: destruct (List.find _ c); [|apply effect_none].
    all: case_decide; [apply effect_none|].
    all: delete_effect c.
  - unfold Part003.delete_all_files. ops. case_decide; cbn.
    + destruct c; [apply effect_none|done].
    + by apply effect_delete_all.
Qed.

Lemma apps_effects env (r : HttpRequest) c :
  effect false c (snd (dispatch (Server.app env) r c)) ∧
  effect true c (snd (dispatch (Part001.app env) r c)) ∧
  effect true c (snd (dispatch (Part003.app env) r c)).
Proof.
  pose proof (read_handlers_effect false env) as (? & ? & ? & ? & ? & ? & ?).
  pose proof (read_handlers_effect true env) as (? & ? & ? & ? & ? & ? & ?).
  pose proof (delete_handlers_effect env) as (? & ? & ? & ?).
  split; [|split]; apply dispatch_has_effect; repeat constructor; cbn [route_handler];
    auto using update_status_effect, submit_feedback_effect, server_upload_effect,
      part001_upload_effect.
Qed.

Lemma apps_effect app env (r : HttpRequest) c :
  app ∈ apps → effect true c (snd (dispatch (app env) r c)).
Proof.
  destruct (apps_effects env r c) as (Hs & H1 & H3). unfold apps. intros Happ.
  repeat (apply elem_of_cons in Happ as [->|Happ]);
    [by apply effect_weaken|done|done|by apply elem_of_nil in Happ].
Qed.


End RequestEffects.

(** ** Shape of updates and deletions *)

Section Shapes.
Context {bson : BsonObjectId}.
Implicit Types (c : Collection) (d : FileDoc) (q : FileDoc → bool).

Lemma update_first_split q set c d :
  List.find q c = Some d →
  ∃ l1 l2, c = (l1 ++ d :: l2)%list ∧ Forall (λ x, q x = false) l1 ∧
           snd (update_first q set c) = (l1 ++ set d :: l2)%list.
Proof.
  induction c as [|d' c IH]; cbn; [done|].
  destruct (q d') eqn:E.
  - intros [= ->]. by exists [], c.
  - intros H. destruct (IH H) as (l1 & l2 & -> & Hl1 & Hu).
    exists (d' :: l1), l2. destruct (update_first q set _). cbn in *.
    split; [done|]. split; [by constructor|by subst].
Qed.

Lemma delete_first_split q c d :
  List.find q c = Some d →
  ∃ l1 l2, c = (l1 ++ d :: l2)%list ∧ Forall (λ x, q x = false) l1 ∧
           snd (delete_first q c) = (l1 ++ l2)%list.
Proof.
  induction c as [|d' c IH]; cbn; [done|].
  destruct (q d') eqn:E.
  - intros [= ->]. by exists [], c.
  - intros H. destruct (IH H) as (l1 & l2 & -> & Hl1 & Hu).
    exists (d' :: l1), l2. destruct (delete_first q _). cbn in *.
    split; [done|]. split; [by constructor|by subst].
Qed.

Lemma update_first_fmap {B} (f : FileDoc → B) q set c :
  (∀ d, f (set d) = f d) → f <$> snd (update_first q set c) = f <$> c.
Proof.
  intros Hf. induction c as [|d c IH]; cbn; [done|].
  destruct (q d); cbn; [by rewrite Hf|].
  destruct (update_first q set c). cbn in *. by rewrite IH.
Qed.

Lemma delete_first_sublist q c : snd (delete_first q c) `sublist_of` c.
Proof.
  induction c as [|d c IH]; cbn; [done|].
  destruct (q d); cbn; [by apply sublist_cons|].
  destruct (delete_first q c). cbn in *. by apply sublist_skip.
Qed.

Lemma NoDup_fmap_snoc {B} (f : FileDoc → B) c d :
  Forall (λ d', f d' ≠ f d) c → NoDup (f <$> c) → NoDup (f <$> (c ++ [d])%list).
Proof.
  intros Hfresh Hc. rewrite fmap_app. apply NoDup_app.
  split; [done|]. split; [|apply NoDup_singleton].
  intros x Hx [->|[]%elem_of_nil]%elem_of_cons.
  apply list_elem_of_fmap in Hx as (d' & Heq & Hd').
  rewrite Forall_forall in Hfresh. by destruct (Hfresh d' Hd').
Qed.

Lemma effect_ids_NoDup deletes c c' :
  effect deletes c c' → NoDup (_id <$> c) → NoDup (_id <$> c').
Proof.
  intros He Hc. destruct He as [|d Hid Hpk _ _ _ _ _|o s _|o s _|o _|_].
  - done.
  - by apply NoDup_fmap_snoc.
  - by rewrite update_first_fmap.
  - by rewrite update_first_fmap.
  - eapply sublist_NoDup; [exact Hc|]. apply fmap_sublist, delete_first_sublist.
  - constructor.
Qed.

Lemma effect_passkeys_NoDup deletes c c' :
  effect deletes c c' → NoDup (passkey <$> c) → NoDup (passkey <$> c').
Proof.
  intros He Hc. destruct He as [|d Hid Hpk _ _ _ _ _|o s _|o s _|o _|_].
  - done.
  - by apply NoDup_fmap_snoc.
  - by rewrite update_first_fmap.
  - by rewrite update_first_fmap.
  - eapply sublist_NoDup; [exact Hc|]. apply fmap_sublist, delete_first_sublist.
  - constructor.
Qed.

Lemma reachable_effect_ind (Q : Collection → Prop) :
  Q [] → (∀ c c', effect true c c' → Q c → Q c') → ∀ c, reachable c → Q c.
Proof.
  intros Hnil Hstep c. induction 1 as [|app env r c Happ _ IH]; [done|].
  eapply Hstep; [by apply apps_effect|done].
Qed.

Lemma reachable_ids_NoDup c : reachable c → NoDup (_id <$> c).
Proof.
  revert c. apply (reachable_effect_ind (λ c, NoDup (_id <$> c))); [constructor|].
  intros c c'. apply effect_ids_NoDup.
Qed.

Lemma reachable_passkeys_NoDup c : reachable c → NoDup (passkey <$> c).
Proof.
  revert c. apply (reachable_effect_ind (λ c, NoDup (passkey <$> c))); [constructor|].
  intros c c'. apply effect_passkeys_NoDup.
Qed.

End Shapes.

(** ** Invariants of the reachable collections *)

Section MoreInvariants.
Context {bson : BsonObjectId}.
Implicit Types (c : Collection) (d : FileDoc) (env : Env) (r : HttpRequest).

(** X2.  In every collection the applications can produce, served one
    request after the other, no two records share an id and no two share a
    passkey: an upload is stored only after [findOne({ passkey })] found
    nothing, and no handler assigns [passkey] or [_id] afterwards. *)
Theorem reachable_keys_unique c :
  reachable c → NoDup (_id <$> c) ∧ NoDup (passkey <$> c).
Proof.
  intros Hc. split; [by apply reachable_ids_NoDup|by apply reachable_passkeys_NoDup].
Qed.

Lemma effect_Forall (P : FileDoc → Prop) deletes c c' :
  (∀ s d, s ≠ "" → P d → P (set_status s d)) →
  (∀ s d, s ≠ "" → P d → P (set_feedback s d)) →
  (∀ d, passkey d ≠ "" → category d ≠ Some "" → status d = "under_processing" → P d) →
  effect deletes c c' → Forall P c → Forall P c'.
Proof.
  intros Hs Hf Hnew He Hc. destruct He as [|d _ _ ? ? _ ? _|o s ?|o s ?|o _|_].
  - done.
  - apply Forall_app. split; [done|]. apply Forall_singleton. auto.
  - apply update_first_Forall; auto.
  - apply update_first_Forall; auto.
  - by apply delete_first_Forall.
  - constructor.
Qed.

(** X3.  Every record of every collection the applications produce from
    requests whose body fields are text has a non-empty passkey and a
    non-empty status, and its category is absent or non-empty: the
    handlers refuse an empty [passkey], [category] and [status] before
    they write. *)
Theorem reachable_fields_nonempty c :
  reachable c →
  Forall (λ d, passkey d ≠ "" ∧ status d ≠ "" ∧ category d ≠ Some "") c.
Proof.
  revert c. apply (reachable_effect_ind (λ c, Forall _ c)); [constructor|].
  intros c c'. apply effect_Forall.
  - intros s d Hs (? & ? & ?). done.
  - intros s d Hs (? & ? & ?). done.
  - intros d ? ? Hst. rewrite Hst. done.
Qed.

Lemma update_first_length (q : FileDoc → bool) set c :
  length (snd (update_first q set c)) = length c.
Proof.
  induction c as [|d c IH]; cbn; [done|].
  destruct (q d); cbn; [done|].
  destruct (update_first q set c). cbn in *. by rewrite IH.
Qed.

(** X4.  server.js has no way to remove a record or to change what was
    uploaded: after any request, the ids, file names, content types,
    payloads, upload times, passkeys and categories of the records that
    were stored are still there, in order, followed by at most one new
    record. *)
Theorem server_never_removes env r c :
  let c' := snd (dispatch (Server.app env) r c) in
  core <$> c `prefix_of` core <$> c' ∧ (length c' ≤ S (length c))%nat.
Proof.
  intros c'. subst c'.
  destruct (apps_effects env r c) as [He _].
  destruct He as [|d _ _ _ _ _ _ _|o s _|o s _|o Hdel|Hdel]; try discriminate.
  - split; [reflexivity|lia].
  - rewrite fmap_app, length_app. cbn. split; [by apply prefix_app_r|lia].
  - rewrite update_first_fmap, update_first_length by done. split; [reflexivity|lia].
  - rewrite update_first_fmap, update_first_length by done. split; [reflexivity|lia].
Qed.

Lemma dispatch_get_read_only (app : list Route) r c :
  Forall (λ rt, route_method rt = GET →
                ∀ req c, snd (route_handler rt req c) = c) app →
  http_method r = GET → snd (dispatch app r c) = c.
Proof.
  intros Happ Hm. induction Happ as [|rt app Hrt _ IH]; cbn; [done|].
  case_decide as Hrm; [|done].
  destruct (match_path _ _); [|done]. apply Hrt. congruence.
Qed.

Ltac ops :=
  unfold try_catch, bind, new_ObjectId, findOne, find_all, updateOne, deleteOne,
    deleteMany_all, insertOne, ret, throw in *.

Lemma file_by_passkey_read_only req c : snd (Server.file_by_passkey req c) = c.
Proof. unfold Server.file_by_passkey. ops. by repeat case_match; simplify_eq/=. Qed.

Lemma file_by_id_read_only env req c : snd (Server.file_by_id env req c) = c.
Proof. unfold Server.file_by_id. ops. by repeat case_match; simplify_eq/=. Qed.

(** X5.  A GET request never changes the collection, in any revision:
    the four GET routes only read. *)
Theorem get_is_read_only app env r c :
  app ∈ apps → http_method r = GET → snd (dispatch (app env) r c) = c.
Proof.
  unfold apps. intros Happ Hm. apply dispatch_get_read_only; [|done].
  repeat (apply elem_of_cons in Happ as [->|Happ]);
    [..|by apply elem_of_nil in Happ];
    repeat constructor; cbn [route_handler route_method]; try discriminate;
    intros _ req c0;
    auto using file_by_passkey_read_only, file_by_id_read_only.
Qed.

End MoreInvariants.

(** ** server.js: access by passkey, and what an upload is refused for *)

Section ServerMore.
Context {bson : BsonObjectId}.
Implicit Types (c : Collection) (d : FileDoc) (env : Env) (r : HttpRequest) (req : Request).

Lemma dispatch_file_by_passkey env r p :
  http_method r = GET → http_path r = ["file"; "passkey"; p] → p ≠ "" →
  dispatch (Server.app env) r =
    Server.file_by_passkey
      {| params := [("passkey", p)]; body := http_body r; file := http_file r |}.
Proof.
  destruct r as [m pa b f]; cbn. intros -> -> Hp.
  cbn. repeat (case_decide; try done).
Qed.

Lemma file_by_passkey_run req p c :
  get "passkey" (params req) = Some p →
  Server.file_by_passkey req c =
    (Return match List.find (by_passkey p) c with
            | None => json 404 (failure "File not found")
            | Some d => Server.serve d
            end, c).
Proof.
  intros Hp. unfold Server.file_by_passkey, try_catch, bind, findOne, ret.
  rewrite Hp. by destruct (List.find _ c).
Qed.

(** X6.  [GET /file/passkey/:passkey] never changes the collection; it
    answers 404 when no record has the passkey, and otherwise sends the
    bytes of the first record that has it, with that record's content type
    and [Content-Disposition: inline]. *)
Theorem file_by_passkey_outcome env r p c :
  http_method r = GET → http_path r = ["file"; "passkey"; p] → p ≠ "" →
  let reply := dispatch (Server.app env) r c in
  snd reply = c ∧
  (Forall (λ d, passkey d ≠ p) c →
   fst reply = Return (json 404 (failure "File not found"))) ∧
  (∀ d, List.find (by_passkey p) c = Some d →
     fst reply =
       Return (send [("Content-Type", contentType d); ("Content-Disposition", "inline")]
                 (data d))).
Proof.
  intros Hm Hpa Hp reply. subst reply.
  rewrite (dispatch_file_by_passkey env r p) by done.
  rewrite (file_by_passkey_run _ p) by done. cbn [fst snd].
  split; [done|]. split.
  - intros Hno. by apply find_by_passkey_none in Hno as ->.
  - by intros d ->.
Qed.

Lemma server_upload_stored env r f p c :
  http_method r = POST → http_path r = ["submit-form"] →
  http_file r = Some f → mimetype f = "application/pdf" →
  truthy (get "passkey" (http_body r)) = Some p →
  Forall (λ d, passkey d ≠ p) c →
  Forall (λ d, _id d ≠ generatedId env) c →
  dispatch (Server.app env) r c =
    (Return (json 200 (JObj [("success", JBool true);
                             ("fileId", JStr (toHexString (generatedId env)))])),
     (c ++ [ {| _id := generatedId env; filename := originalname f;
                contentType := mimetype f; data := buffer f;
                uploadedAt := now env; status := "under_processing";
                passkey := p; category := None; feedback := None |} ])%list).
Proof.
  intros Hm Hp Hf Hpdf Hkey Hfresh Hid.
  rewrite dispatch_submit_form by done.
  rewrite (upload_single_pdf _ _ f) by done.
  unfold Server.submit_form; cbn [body file].
  rewrite Hkey, Hf. unfold bind, findOne, try_catch, insertOne, ret.
  apply find_by_passkey_none in Hfresh as ->.
  by rewrite (existsb_by_id_false _ _ Hid).
Qed.

(** X7.  After a PDF is uploaded to server.js with a passkey no stored
    record has, [GET /file/passkey/<that passkey>] sends back the uploaded
    bytes under the uploaded content type. *)
Theorem submit_form_then_file_by_passkey env r f p c :
  http_method r = POST → http_path r = ["submit-form"] →
  http_file r = Some f → mimetype f = "application/pdf" →
  truthy (get "passkey" (http_body r)) = Some p →
  Forall (λ d, passkey d ≠ p) c →
  Forall (λ d, _id d ≠ generatedId env) c →
  let c' := snd (dispatch (Server.app env) r c) in
  ∀ env' r',
    http_method r' = GET → http_path r' = ["file"; "passkey"; p] →
    dispatch (Server.app env') r' c' =
      (Return (send [("Content-Type", mimetype f); ("Content-Disposition", "inline")]
                 (buffer f)),
       c').
Proof.
  intros Hm Hp Hf Hpdf Hkey Hfresh Hid c' env' r' Hm' Hp'. subst c'.
  rewrite (server_upload_stored env r f p c) by done. cbn [snd].
  apply truthy_Some in Hkey as [_ Hne].
  rewrite (dispatch_file_by_passkey env' r' p) by done.
  rewrite (file_by_passkey_run _ p) by done.
  rewrite (find_app_fresh (by_passkey p) c _); [done| |by apply by_passkey_true].
  by apply find_by_passkey_none.
Qed.

(** X8.  What server.js refuses an upload for, once it is past the file
    filter, always leaving the collection as it was: a missing or empty
    passkey (400 "Passkey is required"); with a passkey no record has, a
    missing file (400 "No file uploaded"); and with passkey and PDF in
    order, a generated id that a stored record already has, which makes
    the insertion throw (500 "File upload failed"). *)
Theorem submit_form_rejections env r c :
  http_method r = POST → http_path r = ["submit-form"] →
  (∀ f, http_file r = Some f → mimetype f = "application/pdf") →
  let reply := dispatch (Server.app env) r c in
  (truthy (get "passkey" (http_body r)) = None →
   reply = (Return (json 400 (failure "Passkey is required")), c)) ∧
  (∀ p, truthy (get "passkey" (http_body r)) = Some p →
        Forall (λ d, passkey d ≠ p) c →
        (http_file r = None →
         reply = (Return (json 400 (failure "No file uploaded")), c)) ∧
        (is_Some (http_file r) → Exists (λ d, _id d = generatedId env) c →
         reply = (Return (json 500 (failure "File upload failed")), c))).
Proof.
  intros Hm Hp Hpdf reply. subst reply.
  rewrite dispatch_submit_form by done.
  assert (Hup : upload_single Server.fileFilter (Server.submit_form env)
                  {| params := []; body := http_body r; file := http_file r |} c =
                Server.submit_form env
                  {| params := []; body := http_body r; file := http_file r |} c).
  { destruct (http_file r) as [f|] eqn:Hf; [|done].
    by rewrite (upload_single_pdf _ _ f) by auto. }
  rewrite Hup. unfold Server.submit_form; cbn [body file]. split.
  - by intros ->.
  - intros p -> Hfresh. unfold bind, findOne, try_catch, insertOne, ret.
    apply find_by_passkey_none in Hfresh as ->. split.
    + by intros ->.
    + intros [f ->] Hex.
      assert (existsb (by_id (generatedId env)) c = true) as ->; [|done].
      apply existsb_exists. apply Exists_exists in Hex as (d & Hd & Hid).
      exists d. split; [by apply list_elem_of_In|by apply by_id_true].
Qed.

End ServerMore.

Section ServerCompose.
Context {bson : BsonObjectId} {laws : BsonObjectIdLaws}.
Implicit Types (c : Collection) (d : FileDoc) (env : Env) (r : HttpRequest) (req : Request).

(** X9.  Right after an upload to server.js, [/get-feedback] with the id
    that was returned answers "No feedback provided yet." to the passkey
    of the upload and 403 to any other passkey. *)
Theorem upload_then_get_feedback env r f p c :
  http_method r = POST → http_path r = ["submit-form"] →
  http_file r = Some f → mimetype f = "application/pdf" →
  truthy (get "passkey" (http_body r)) = Some p →
  Forall (λ d, passkey d ≠ p) c →
  Forall (λ d, _id d ≠ generatedId env) c →
  let c' := snd (dispatch (Server.app env) r c) in
  ∀ env' req pk,
    truthy (get "fileId" (body req)) = Some (toHexString (generatedId env)) →
    truthy (get "passkey" (body req)) = Some pk →
    Server.get_feedback env' req c' =
      (Return (if decide (pk = p) then feedback_reply "No feedback provided yet."
               else json 403 (failure "Incorrect passkey")),
       c').
Proof.
  intros Hm Hp Hf Hpdf Hkey Hfresh Hid c' env' req pk Hx Hpk. subst c'.
  rewrite (server_upload_stored env r f p c) by done. cbn [snd].
  rewrite (get_feedback_run env' req _ pk) by done.
  rewrite new_toHexString.
  rewrite (find_app_fresh (by_id (generatedId env)) c _);
    [| by apply find_by_id_none | by apply by_id_true].
  cbn. case_decide; case_decide; congruence.
Qed.

End ServerCompose.

(** ** server.js: more on the review handlers *)

Section ReviewMore.
Context {bson : BsonObjectId}.
Implicit Types (c : Collection) (d : FileDoc) (env : Env) (req : Request) (o : ObjectId).

(** X10.  [/update-status] and [/submit-feedback] answer 400 "Missing
    parameters" when [id] or the new value is missing or empty, and 500
    when [id] is present but not the text of an ObjectId; in both cases
    the collection is left as it was. *)
Theorem review_update_rejections env req c :
  ((truthy (get "id" (body req)) = None ∨ truthy (get "status" (body req)) = None →
    Server.update_status env req c =
      (Return (json 400 (failure "Missing parameters")), c)) ∧
   (∀ id st, truthy (get "id" (body req)) = Some id →
             truthy (get "status" (body req)) = Some st →
             newObjectId id = None →
             Server.update_status env req c =
               (Return (json 500 (failure "Error updating status")), c))) ∧
  ((truthy (get "id" (body req)) = None ∨ truthy (get "feedback" (body req)) = None →
    Server.submit_feedback env req c =
      (Return (json 400 (failure "Missing parameters")), c)) ∧
   (∀ id fb, truthy (get "id" (body req)) = Some id →
             truthy (get "feedback" (body req)) = Some fb →
             newObjectId id = None →
             Server.submit_feedback env req c =
               (Return (json 500 (failure "Error submitting feedback")), c))).
Proof.
  split; split.
  - unfold Server.update_status. intros [-> | ->]; [done|].
    by destruct (truthy (get "id" _)).
  - intros id st Hid Hst Ho.
    unfold Server.update_status, try_catch, bind, new_ObjectId, throw.
    by rewrite Hid, Hst, Ho.
  - unfold Server.submit_feedback. intros [-> | ->]; [done|].
    by destruct (truthy (get "id" _)).
  - intros id fb Hid Hfb Ho.
    unfold Server.submit_feedback, try_catch, bind, new_ObjectId, throw.
    by rewrite Hid, Hfb, Ho.
Qed.

Lemma update_by_id_frame (set : FileDoc → FileDoc) o c :
  let c' := snd (update_first (by_id o) set c) in
  c' = c ∨
  ∃ l1 d l2, c = (l1 ++ d :: l2)%list ∧ c' = (l1 ++ set d :: l2)%list ∧
             _id d = o ∧ Forall (λ d', _id d' ≠ o) l1.
Proof.
  intros c'. subst c'. destruct (List.find (by_id o) c) as [d|] eqn:Hfind.
  - right. destruct (update_first_split _ set _ _ Hfind) as (l1 & l2 & Hc & Hl1 & Hu).
    exists l1, d, l2. split; [done|]. split; [done|].
    apply find_some_elem in Hfind as [_ Hq]. split; [by apply by_id_true|].
    eapply Forall_impl; [exact Hl1|]. intros d'. apply by_id_false.
  - left. by rewrite update_first_none.
Qed.

Lemma update_status_store env req c :
  snd (Server.update_status env req c) = c ∨
  ∃ id st o, truthy (get "id" (body req)) = Some id ∧
             truthy (get "status" (body req)) = Some st ∧
             newObjectId id = Some o ∧
             snd (Server.update_status env req c) =
               snd (update_first (by_id o) (set_status st) c).
Proof.
  destruct (truthy (get "id" (body req))) as [id|] eqn:Hid;
    [destruct (truthy (get "status" (body req))) as [st|] eqn:Hst;
       [destruct (newObjectId id) as [o|] eqn:Ho|]|].
  - right. exists id, st, o. by rewrite (update_status_run env req id st o).
  - left. unfold Server.update_status, try_catch, bind, new_ObjectId, throw.
    by rewrite Hid, Hst, Ho.
  - left. unfold Server.update_status. by rewrite Hid, Hst.
  - left. unfold Server.update_status. by rewrite Hid.
Qed.

Lemma submit_feedback_store env req c :
  snd (Server.submit_feedback env req c) = c ∨
  ∃ id fb o, truthy (get "id" (body req)) = Some id ∧
             truthy (get "feedback" (body req)) = Some fb ∧
             newObjectId id = Some o ∧
             snd (Server.submit_feedback env req c) =
               snd (update_first (by_id o) (set_feedback fb) c).
Proof.
  destruct (truthy (get "id" (body req))) as [id|] eqn:Hid;
    [destruct (truthy (get "feedback" (body req))) as [fb|] eqn:Hfb;
       [destruct (newObjectId id) as [o|] eqn:Ho|]|].
  - right. exists id, fb, o. by rewrite (submit_feedback_run env req id fb o).
  - left. unfold Server.submit_feedback, try_catch, bind, new_ObjectId, throw.
    by rewrite Hid, Hfb, Ho.
  - left. unfold Server.submit_feedback. by rewrite Hid, Hfb.
  - left. unfold Server.submit_feedback. by rewrite Hid.
Qed.

(** X11.  [/update-status] and [/submit-feedback] change at most one
    record, the first whose id is the one given, and of that record only
    [status], respectively [feedback]: every other record, and every other
    field of that record, is as before. *)
Theorem review_update_frame env req c :
  let cs := snd (Server.update_status env req c) in
  let cf := snd (Server.submit_feedback env req c) in
  (cs = c ∨
   ∃ l1 d l2 id st o,
     truthy (get "id" (body req)) = Some id ∧ newObjectId id = Some o ∧
     truthy (get "status" (body req)) = Some st ∧
     c = (l1 ++ d :: l2)%list ∧ _id d = o ∧ Forall (λ d', _id d' ≠ o) l1 ∧
     cs = (l1 ++ set_status st d :: l2)%list ∧
     core (set_status st d) = core d ∧ feedback (set_status st d) = feedback d) ∧
  (cf = c ∨
   ∃ l1 d l2 id fb o,
     truthy (get "id" (body req)) = Some id ∧ newObjectId id = Some o ∧
     truthy (get "feedback" (body req)) = Some fb ∧
     c = (l1 ++ d :: l2)%list ∧ _id d = o ∧ Forall (λ d', _id d' ≠ o) l1 ∧
     cf = (l1 ++ set_feedback fb d :: l2)%list ∧
     core (set_feedback fb d) = core d ∧ status (set_feedback fb d) = status d).
Proof.
  intros cs cf. subst cs cf. split.
  - destruct (update_status_store env req c) as [->|(id & st & o & Hid & Hst & Ho & ->)];
      [by left|].
    destruct (update_by_id_frame (set_status st) o c) as [->|(l1 & d & l2 & ? & ? & ? & ?)];
      [by left|].
    right. by exists l1, d, l2, id, st, o.
  - destruct (submit_feedback_store env req c) as [->|(id & fb & o & Hid & Hfb & Ho & ->)];
      [by left|].
    destruct (update_by_id_frame (set_feedback fb) o c) as [->|(l1 & d & l2 & ? & ? & ? & ?)];
      [by left|].
    right. by exists l1, d, l2, id, fb, o.
Qed.

(** X12.  Feedback given is feedback read: after [/submit-feedback] with
    text [fb] for the id of a stored record, whatever it answered,
    [/get-feedback] with that id and the record's passkey answers [fb]. *)
Theorem submit_feedback_then_get_feedback env env' rf rg id fb o d c :
  truthy (get "id" (body rf)) = Some id →
  truthy (get "feedback" (body rf)) = Some fb →
  newObjectId id = Some o →
  List.find (by_id o) c = Some d →
  truthy (get "fileId" (body rg)) = Some id →
  truthy (get "passkey" (body rg)) = Some (passkey d) →
  let c' := snd (Server.submit_feedback env rf c) in
  Server.get_feedback env' rg c' = (Return (feedback_reply fb), c').
Proof.
  intros Hid Hfb Ho Hd Hx Hpk c'. subst c'.
  rewrite (submit_feedback_run env rf id fb o) by done. cbn [snd].
  rewrite (get_feedback_run env' rg id (passkey d)) by done. rewrite Ho.
  destruct (update_by_id_cases (set_feedback fb) o c) as (_ & _ & Hfind); [done|].
  rewrite (Hfind d Hd). cbn. rewrite decide_False by auto.
  apply truthy_Some in Hfb as [_ Hne]. by destruct fb.
Qed.

(** X13.  A status set is a status listed: after [/update-status] with
    status [st] for the id of a stored record, [/get-files] lists the
    records as before, except that the summary of that record carries
    [st] as its status. *)
Theorem update_status_then_get_files env rs req id st o d c :
  truthy (get "id" (body rs)) = Some id →
  truthy (get "status" (body rs)) = Some st →
  newObjectId id = Some o →
  List.find (by_id o) c = Some d →
  let c' := snd (Server.update_status env rs c) in
  ∃ l1 l2,
    c = (l1 ++ d :: l2)%list ∧
    Server.get_files req c' =
      (Return (files_reply
                 (map Server.file_summary l1 ++
                  Server.file_summary (set_status st d) ::
                  map Server.file_summary l2)%list), c') ∧
    member "status" (Server.file_summary (set_status st d)) = Some (JStr st) ∧
    ∀ k, k ≠ "status" →
         member k (Server.file_summary (set_status st d)) =
         member k (Server.file_summary d).
Proof.
  intros Hid Hst Ho Hd c'. subst c'.
  rewrite (update_status_run env rs id st o) by done. cbn [snd].
  destruct (update_first_split _ (set_status st) _ _ Hd) as (l1 & l2 & Hc & _ & ->).
  exists l1, l2. split; [done|]. split; [|split; [done|]].
  - unfold Server.get_files, try_catch, bind, find_all, ret, files_reply.
    by rewrite map_app.
  - intros k Hk. cbn. repeat (case_decide; [done|]). done.
Qed.

End ReviewMore.

(** ** part_001 and part_003: uploads with a category, deletions *)

Section Categories.
Context {bson : BsonObjectId}.
Implicit Types (c : Collection) (d : FileDoc) (env : Env) (r : HttpRequest) (req : Request).

Lemma dispatch_submit_form_category env r :
  http_method r = POST → http_path r = ["submit-form"] →
  dispatch (Part001.app env) r =
    upload_single Part001.fileFilter (Part001.submit_form env)
      {| params := []; body := http_body r; file := http_file r |} ∧
  dispatch (Part003.app env) r =
    upload_single Part001.fileFilter (Part001.submit_form env)
      {| params := []; body := http_body r; file := http_file r |}.
Proof. destruct r as [m p b f]; cbn. by intros -> ->. Qed.

Lemma upload_single_pdf_category (h : Handler) req c :
  (∀ f, file req = Some f → mimetype f = "application/pdf") →
  upload_single Part001.fileFilter h req c = h req c.
Proof.
  intros Hpdf. unfold upload_single, Part001.fileFilter.
  destruct (file req) as [f|]; [|done]. by rewrite decide_True by auto.
Qed.

(** X14.  What part_001 (and part_003, by the same code) refuses an
    upload for, once it is past the file filter, always leaving the
    collection as it was: a missing or empty passkey or category; then a
    missing file, whether or not the passkey is taken; then a passkey a
    stored record already has. *)
Theorem category_submit_form_rejections env r c :
  http_method r = POST → http_path r = ["submit-form"] →
  (∀ f, http_file r = Some f → mimetype f = "application/pdf") →
  let reply := dispatch (Part001.app env) r c in
  dispatch (Part003.app env) r c = reply ∧
  (truthy (get "passkey" (http_body r)) = None ∨
   truthy (get "category" (http_body r)) = None →
   reply = (Return (json 400 (failure "Passkey and Category are required")), c)) ∧
  (is_Some (truthy (get "passkey" (http_body r))) →
   is_Some (truthy (get "category" (http_body r))) →
   (http_file r = None →
    reply = (Return (json 400 (failure "No PDF file uploaded")), c)) ∧
   (∀ p, is_Some (http_file r) →
         truthy (get "passkey" (http_body r)) = Some p →
         (∃ d, d ∈ c ∧ passkey d = p) →
         reply = (Return (json 400 (failure "Passkey already in use. Choose another.")), c))).
Proof.
  intros Hm Hp Hpdf reply. subst reply.
  destruct (dispatch_submit_form_category env r Hm Hp) as [-> ->].
  split; [done|].
  rewrite upload_single_pdf_category by done.
  unfold Part001.submit_form; cbn [body file]. split.
  - intros [-> | ->]; [done|]. by destruct (truthy (get "passkey" _)).
  - intros [p ->] [cat ->]. split.
    + by intros ->.
    + intros ? [f ->] [= <-] Hex. apply find_by_passkey_some in Hex as [d Hd].
      unfold bind, findOne. by rewrite Hd.
Qed.

(** X15.  After a PDF is uploaded to part_001 with a category and a
    passkey no stored record has, [/get-files] lists what it listed
    before, followed by the summary of the upload: its id, file name,
    status "under_processing", passkey, null feedback, the category given
    and the time of the upload. *)
Theorem category_upload_then_get_files env r f p cat c :
  http_method r = POST → http_path r = ["submit-form"] →
  http_file r = Some f → mimetype f = "application/pdf" →
  truthy (get "passkey" (http_body r)) = Some p →
  truthy (get "category" (http_body r)) = Some cat →
  Forall (λ d, passkey d ≠ p) c →
  Forall (λ d, _id d ≠ generatedId env) c →
  let c' := snd (dispatch (Part001.app env) r c) in
  ∀ req,
    Part001.get_files req c' =
      (Return (files_reply
                 (map Part001.file_summary c ++
                  [JObj [("_id", JStr (toHexString (generatedId env)));
                         ("filename", JStr (originalname f));
                         ("status", JStr "under_processing");
                         ("passkey", JStr p);
                         ("feedback", JNull);
                         ("category", JStr cat);
                         ("uploadDate", JDate (now env))]])%list),
       c').
Proof.
  intros Hm Hp Hf Hpdf Hkey Hcat Hfresh Hid c' req. subst c'.
  destruct (dispatch_submit_form_category env r Hm Hp) as [-> _].
  rewrite upload_single_pdf_category by (cbn; congruence).
  unfold Part001.submit_form; cbn [body file].
  rewrite Hkey, Hcat, Hf. unfold bind, findOne, try_catch, insertOne, ret.
  apply find_by_passkey_none in Hfresh as ->.
  rewrite (existsb_by_id_false _ _ Hid). cbn [snd].
  unfold Part001.get_files, try_catch, bind, find_all, ret, files_reply.
  rewrite map_app. cbn. apply truthy_Some in Hcat as [_ Hne].
  by destruct cat.
Qed.

Lemma dispatch_delete_file_part001 env r x :
  http_method r = DELETE → http_path r = ["delete-file"; x] → x ≠ "" →
  dispatch (Part001.app env) r =
    Part001.delete_file env
      {| params := [("id", x)]; body := http_body r; file := http_file r |}.
Proof.
  destruct r as [m p b f]; cbn. intros -> -> Hx.
  cbn. repeat (case_decide; try done).
Qed.

Lemma delete_file_run env req x c :
  get "id" (params req) = Some x →
  Part001.delete_file env req c =
    match newObjectId x with
    | None => (Return (json 500 (failure "Error deleting file")), c)
    | Some o =>
        (Return (if decide (deletedCount (fst (delete_first (by_id o) c)) = 0)
                 then json 404 (failure "File not found")
                 else json 200 (success "File deleted")),
         snd (delete_first (by_id o) c))
    end.
Proof.
  intros Hx. unfold Part001.delete_file, try_catch, bind, new_ObjectId, deleteOne, ret, throw.
  rewrite Hx. destruct (newObjectId x) as [o|]; [|done].
  destruct (delete_first _ c) as [n c']. cbn. by case_decide.
Qed.

(** X16.  [DELETE /delete-file/:id] in part_001 answers 500 and changes
    nothing when the id is not the text of an ObjectId, answers 404 and
    changes nothing when no record has the id, and otherwise answers 200
    and removes the first record that has the id, and only that one. *)
Theorem delete_file_outcome env r x c :
  http_method r = DELETE → http_path r = ["delete-file"; x] → x ≠ "" →
  let reply := dispatch (Part001.app env) r c in
  (newObjectId x = None →
   reply = (Return (json 500 (failure "Error deleting file")), c)) ∧
  (∀ o, newObjectId x = Some o →
     (Forall (λ d, _id d ≠ o) c →
      reply = (Return (json 404 (failure "File not found")), c)) ∧
     (∀ d, List.find (by_id o) c = Some d →
        ∃ l1 l2, c = (l1 ++ d :: l2)%list ∧ Forall (λ d', _id d' ≠ o) l1 ∧
                 reply = (Return (json 200 (success "File deleted")), (l1 ++ l2)%list))).
Proof.
  intros Hm Hp Hx reply. subst reply.
  rewrite (dispatch_delete_file_part001 env r x) by done.
  rewrite (delete_file_run env _ x) by done. split; [by intros ->|].
  intros o ->. split.
  - intros Hno. apply find_by_id_none in Hno. by rewrite delete_first_none.
  - intros d Hd. destruct (delete_first_split _ _ _ Hd) as (l1 & l2 & Hc & Hl1 & Hdel).
    exists l1, l2. split; [done|]. split.
    + eapply Forall_impl; [exact Hl1|]. intros d'. apply by_id_false.
    + rewrite (delete_first_some _ _ _ Hd), Hdel. done.
Qed.

(** X17.  Where ids are unique, as they are in every collection the
    applications produce, a record deleted in part_001 is gone: after
    [DELETE /delete-file/:id], no record has that id, a second such
    request is answered 404, and [/get-feedback] for the id is answered
    404 whatever the passkey. *)
Theorem delete_then_not_found env r x o c :
  http_method r = DELETE → http_path r = ["delete-file"; x] → x ≠ "" →
  newObjectId x = Some o → NoDup (_id <$> c) →
  let c' := snd (dispatch (Part001.app env) r c) in
  Forall (λ d, _id d ≠ o) c' ∧
  (∀ env' r', http_method r' = DELETE → http_path r' = ["delete-file"; x] →
     dispatch (Part001.app env') r' c' =
       (Return (json 404 (failure "File not found")), c')) ∧
  (∀ env' req pk,
     truthy (get "fileId" (body req)) = Some x →
     truthy (get "passkey" (body req)) = Some pk →
     Server.get_feedback env' req c' =
       (Return (json 404 (failure "File not found")), c')).
Proof.
  intros Hm Hp Hx Ho Hnd c'. subst c'.
  rewrite (dispatch_delete_file_part001 env r x) by done.
  rewrite (delete_file_run env _ x) by done. rewrite Ho. cbn [snd].
  assert (Hgone : Forall (λ d, _id d ≠ o) (snd (delete_first (by_id o) c))).
  { destruct (List.find (by_id o) c) as [d|] eqn:Hd.
    - destruct (delete_first_split _ _ _ Hd) as (l1 & l2 & Hc & Hl1 & ->).
      apply find_some_elem in Hd as [_ Hid%by_id_true].
      subst c. rewrite fmap_app, fmap_cons in Hnd.
      apply NoDup_app in Hnd as (_ & _ & Hnd). apply NoDup_cons in Hnd as [Hnotin _].
      apply Forall_app. split.
      + eapply Forall_impl; [exact Hl1|]. intros d'. apply by_id_false.
      + apply Forall_forall. intros d' Hd' Heq. apply Hnotin.
        rewrite Hid, <- Heq. by apply list_elem_of_fmap_2.
    - rewrite delete_first_none by done. by apply find_by_id_none. }
  split; [done|]. split.
  - intros env' r' Hm' Hp'.
    rewrite (dispatch_delete_file_part001 env' r' x) by done.
    rewrite (delete_file_run env' _ x) by done. rewrite Ho.
    apply find_by_id_none in Hgone. by rewrite delete_first_none.
  - intros env' req pk Hfx Hpk.
    rewrite (get_feedback_run env' req x pk) by done. rewrite Ho.
    by apply find_by_id_none in Hgone as ->.
Qed.

End Categories.

(** ** part_003: delete-all, and the handler no request reaches *)

Section Part003More.
Context {bson : BsonObjectId}.
Implicit Types (c : Collection) (d : FileDoc) (env : Env) (r : HttpRequest) (req : Request).

Lemma dispatch_delete_all_files env r :
  http_method r = DELETE → http_path r = ["delete-all-files"] →
  dispatch (Part003.app env) r =
    Part003.delete_all_files
      {| params := []; body := http_body r; file := http_file r |}.
Proof. destruct r as [m p b f]; cbn. by intros -> ->. Qed.

(** X18.  [DELETE /delete-all-files] answers 404 "No files to delete" on
    an empty collection and 200 otherwise, and leaves the collection
    empty; [/get-files] then lists nothing. *)
Theorem delete_all_files_outcome env r c :
  http_method r = DELETE → http_path r = ["delete-all-files"] →
  dispatch (Part003.app env) r c =
    (Return (if decide (c = []) then json 404 (failure "No files to delete")
             else json 200 (success "All files deleted successfully")),
     []) ∧
  ∀ req, Part003.get_files req (snd (dispatch (Part003.app env) r c)) =
           (Return (files_reply []), []).
Proof.
  intros Hm Hp. rewrite (dispatch_delete_all_files env r) by done.
  unfold Part003.delete_all_files, try_catch, bind, deleteMany_all, ret.
  destruct c as [|d c]; cbn; [done|].
  rewrite decide_False by lia. by rewrite decide_False.
Qed.

(** X19.  The passkey-checking delete handler, as a function: 400 when
    the passkey is missing or empty; 500 when the id is not the text of an
    ObjectId; 404 when no record has the id; 403 when the record's passkey
    differs; in all these cases the collection is left as it was.  Only
    when the passkey is the record's does it answer 200 and remove the
    first record with the id, and only that one. *)
Theorem delete_file_passkey_outcome env req c :
  let reply := Part003.delete_file_passkey env req c in
  (truthy (get "passkey" (body req)) = None →
   reply = (Return (json 400 (failure "Passkey is required")), c)) ∧
  (∀ pk x,
     truthy (get "passkey" (body req)) = Some pk →
     get "id" (params req) = Some x →
     (newObjectId x = None →
      reply = (Return (json 500 (failure "Error during file deletion")), c)) ∧
     (∀ o, newObjectId x = Some o →
        (Forall (λ d, _id d ≠ o) c →
         reply = (Return (json 404 (failure "File not found")), c)) ∧
        (∀ d, List.find (by_id o) c = Some d →
           (passkey d ≠ pk →
            reply = (Return (json 403 (failure "Invalid passkey. File not deleted.")), c)) ∧
           (passkey d = pk →
            ∃ l1 l2, c = (l1 ++ d :: l2)%list ∧ Forall (λ d', _id d' ≠ o) l1 ∧
                     reply = (Return (json 200 (success "File deleted successfully")),
                              (l1 ++ l2)%list))))).
Proof.
  intros reply. subst reply. split.
  - intros Hpk. unfold Part003.delete_file_passkey. by rewrite Hpk.
  - intros pk x Hpk Hx. split.
    + intros Ho. unfold Part003.delete_file_passkey, try_catch, bind, new_ObjectId, throw.
      by rewrite Hpk, Hx, Ho.
    + intros o Ho. split; [by apply (delete_file_passkey_not_found env req x pk o)|].
      intros d Hd. split; [by apply (delete_file_passkey_forbidden env req x pk o d)|].
      intros Heq.
      destruct (delete_first_split _ _ _ Hd) as (l1 & l2 & Hc & Hl1 & Hdel).
      exists l1, l2. split; [done|]. split.
      * eapply Forall_impl; [exact Hl1|]. intros d'. apply by_id_false.
      * unfold Part003.delete_file_passkey, try_catch, bind, new_ObjectId, findOne,
          deleteOne, ret.
        rewrite Hpk, Hx, Ho, Hd. rewrite decide_False by auto.
        pose proof (delete_first_some _ _ _ Hd) as Hn.
        destruct (delete_first _ c) as [n c']. cbn in *. by subst.
Qed.

Lemma dispatch_snoc_no_match (app : list Route) (rt : Route) r :
  (if decide (route_method rt = http_method r)
   then match_path (route_path rt) (http_path r) else None) = None →
  dispatch (app ++ [rt]) r = dispatch app r.
Proof.
  intros Hrt. induction app as [|a app IH]; cbn; [by rewrite Hrt|].
  by rewrite IH.
Qed.

Lemma dispatch_snoc_shadowed (app : list Route) (rt : Route) r :
  (∃ rt1, rt1 ∈ app ∧ route_method rt1 = route_method rt ∧
          route_path rt1 = route_path rt) →
  dispatch (app ++ [rt]) r = dispatch app r.
Proof.
  intros (rt1 & Hin & Hm & Hp). induction app as [|a app IH]; [by apply elem_of_nil in Hin|].
  cbn. destruct (if decide (route_method a = _) then _ else _) eqn:Ha; [done|].
  apply elem_of_cons in Hin as [<-|Hin]; [|by apply IH].
  apply dispatch_snoc_no_match. by rewrite <- Hm, <- Hp.
Qed.

(** X20.  In part_003 no request is served by the passkey-checking
    handler: put any handler whatever in its place, as the last route on
    [DELETE /delete-file/:id], and every request gets the same answer and
    leaves the same collection. *)
Theorem passkey_handler_unreachable env (h : Handler) r c :
  dispatch
    (removelast (Part003.app env) ++
     [ {| route_method := DELETE; route_path := [Lit "delete-file"; Param "id"];
          route_handler := h |} ]) r c =
  dispatch (Part003.app env) r c.
Proof.
  assert (Hsh : ∀ h', dispatch (removelast (Part003.app env) ++
                  [ {| route_method := DELETE;
                       route_path := [Lit "delete-file"; Param "id"];
                       route_handler := h' |} ]) r =
                dispatch (removelast (Part003.app env)) r).
  { intros h'. apply dispatch_snoc_shadowed.
    exists {| route_method := DELETE; route_path := [Lit "delete-file"; Param "id"];
              route_handler := Part003.delete_file env |}.
    split; [|done]. cbn. do 9 right. left. }
  rewrite (Hsh h).
  change (Part003.app env) with
    (removelast (Part003.app env) ++
     [ {| route_method := DELETE; route_path := [Lit "delete-file"; Param "id"];
          route_handler := Part003.delete_file_passkey env |} ])%list at 2.
  by rewrite Hsh.
Qed.

End Part003More.

(** ** The connection *)

Lemma ensure_connected_settled (a : Attempt) (s : Connection) :
  client s = true → ensure_connected a s = s.
Proof.
  intros Hc. unfold ensure_connected, connectToMongoDB. rewrite Hc.
  by destruct (_ || _).
Qed.

Lemma foldl_ensure_connected_settled (l : list Attempt) (s : Connection) :
  client s = true → foldl (λ s a, ensure_connected a s) s l = s.
Proof.
  intros Hc. induction l as [|a l IH]; cbn; [done|].
  by rewrite ensure_connected_settled.
Qed.

(** X21.  The first attempt that gets as far as [client.connect()]
    decides for good: if it succeeds, [db] and [filesCollection] are set
    and stay set; if it is rejected, [client] stays assigned, so neither
    the middleware nor [connectToMongoDB] ever tries again and
    [filesCollection] stays undefined whatever later attempts would have
    given.  Attempts on which the constructor throws leave everything
    undefined and are followed by a new attempt on the next request. *)
Theorem connection_decided_by_first_connect (boot : Attempt) (requests : list Attempt) :
  connection_after boot requests =
    match List.find (λ a, bool_decide (a ≠ ConstructorThrows)) (boot :: requests) with
    | None => disconnected
    | Some Connects => {| client := true; db := true; filesCollection := true |}
    | Some _ => {| client := true; db := false; filesCollection := false |}
    end.
Proof.
  unfold connection_after. destruct boot; cbn.
  - induction requests as [|a l IH]; cbn; [done|].
    destruct a; cbn; [exact IH|by rewrite foldl_ensure_connected_settled..].
  - by rewrite foldl_ensure_connected_settled.
  - by rewrite foldl_ensure_connected_settled.
Qed.

(** * Concrete runs of the further properties *)

Lemma two_stored_reachable : reachable [stored; stored_b].
Proof.
  change [stored; stored_b] with
    (snd (dispatch (Server.app env_b) (upload resume [("passkey", "xyz789")]) [stored])).
  apply reachable_request; [left|exact stored_reachable].
Qed.

Lemma stored_ids_fresh : Forall (λ d : FileDoc, _id d ≠ generatedId env_b) [stored].
Proof. repeat constructor. vm_compute. intros [=]. Qed.

Lemma stored_cs_ids_fresh : Forall (λ d : FileDoc, _id d ≠ generatedId env_b) [stored_cs].
Proof. repeat constructor. vm_compute. intros [=]. Qed.

Lemma stored_passkeys_fresh : Forall (λ d : FileDoc, passkey d ≠ "xyz789") [stored].
Proof. repeat constructor. vm_compute. discriminate. Qed.

Lemma stored_cs_passkeys_fresh : Forall (λ d : FileDoc, passkey d ≠ "xyz789") [stored_cs].
Proof. repeat constructor. vm_compute. discriminate. Qed.

Lemma oid_a_text : newObjectId "65f1c0ffee0123456789abcd" = Some oid_a.
Proof. vm_compute. reflexivity. Qed.

Lemma stored_found : List.find (by_id oid_a) [stored] = Some stored.
Proof. vm_compute. reflexivity. Qed.

Lemma stored_cs_found : List.find (by_id oid_a) [stored_cs] = Some stored_cs.
Proof. vm_compute. reflexivity. Qed.

(** X2 at the collection of two uploads. *)
Lemma reachable_keys_unique_witness :
  NoDup (_id <$> [stored; stored_b]) ∧ NoDup (passkey <$> [stored; stored_b]).
Proof. apply reachable_keys_unique. exact two_stored_reachable. Defined.

(** X3 at the collection of two uploads. *)
Lemma reachable_fields_nonempty_witness :
  Forall (λ d, passkey d ≠ "" ∧ status d ≠ "" ∧ category d ≠ Some "")
    [stored; stored_b].
Proof. apply reachable_fields_nonempty. exact two_stored_reachable. Defined.

(** X5 at [GET /get-files] on server.js. *)
Lemma get_is_read_only_witness :
  snd (dispatch (Server.app env_b) (fetch GET ["get-files"] []) [stored; stored_b]) =
    [stored; stored_b].
Proof. apply (get_is_read_only Server.app); [left|reflexivity]. Defined.

(** X6 at the passkey of [stored]. *)
Lemma file_by_passkey_outcome_witness :
  fst (dispatch (Server.app env_b) (fetch GET ["file"; "passkey"; "abc123"] [])
         [stored; stored_b]) =
    Return (send [("Content-Type", "application/pdf"); ("Content-Disposition", "inline")]
              [x25; x50; x44; x46]).
Proof.
  assert (Hp : "abc123" ≠ "") by discriminate.
  destruct (file_by_passkey_outcome env_b
              (fetch GET ["file"; "passkey"; "abc123"] []) "abc123"
              [stored; stored_b] eq_refl eq_refl Hp) as (_ & _ & H).
  exact (H stored eq_refl).
Defined.

(** X7 at a second upload, passkey "xyz789". *)
Lemma submit_form_then_file_by_passkey_witness :
  dispatch (Server.app env_a) (fetch GET ["file"; "passkey"; "xyz789"] [])
    (snd (dispatch (Server.app env_b) (upload resume [("passkey", "xyz789")]) [stored])) =
    (Return (send [("Content-Type", "application/pdf"); ("Content-Disposition", "inline")]
               [x25; x50; x44; x46]),
     snd (dispatch (Server.app env_b) (upload resume [("passkey", "xyz789")]) [stored])).
Proof.
  exact (submit_form_then_file_by_passkey env_b
           (upload resume [("passkey", "xyz789")]) resume "xyz789" [stored]
           eq_refl eq_refl eq_refl eq_refl eq_refl
           stored_passkeys_fresh stored_ids_fresh
           env_a (fetch GET ["file"; "passkey"; "xyz789"] []) eq_refl eq_refl).
Defined.

(** X8 at an upload with a fresh passkey and no file. *)
Lemma submit_form_rejections_witness :
  dispatch (Server.app env_b) (fetch POST ["submit-form"] [("passkey", "xyz789")])
    [stored] =
    (Return (json 400 (failure "No file uploaded")), [stored]).
Proof.
  assert (Hpdf : ∀ f, http_file (fetch POST ["submit-form"] [("passkey", "xyz789")]) = Some f →
                      mimetype f = "application/pdf") by (intros f [=]).
  destruct (submit_form_rejections env_b
              (fetch POST ["submit-form"] [("passkey", "xyz789")]) [stored]
              eq_refl eq_refl Hpdf) as [_ H].
  destruct (H "xyz789" eq_refl stored_passkeys_fresh) as [Hnofile _].
  exact (Hnofile eq_refl).
Defined.

(** X9 at a second upload, read back with the wrong passkey. *)
Lemma upload_then_get_feedback_witness :
  Server.get_feedback env_a
    (post [("fileId", "65f1c0ffee0123456789abce"); ("passkey", "abc123")])
    (snd (dispatch (Server.app env_b) (upload resume [("passkey", "xyz789")]) [stored])) =
    (Return (json 403 (failure "Incorrect passkey")),
     snd (dispatch (Server.app env_b) (upload resume [("passkey", "xyz789")]) [stored])).
Proof.
  exact (upload_then_get_feedback env_b
           (upload resume [("passkey", "xyz789")]) resume "xyz789" [stored]
           eq_refl eq_refl eq_refl eq_refl eq_refl
           stored_passkeys_fresh stored_ids_fresh
           env_a (post [("fileId", "65f1c0ffee0123456789abce"); ("passkey", "abc123")])
           "abc123" eq_refl eq_refl).
Defined.

(** X10 at an id that is not the text of an ObjectId. *)
Lemma review_update_rejections_witness :
  Server.update_status env_b (post [("id", "zzz"); ("status", "approved")]) [stored] =
    (Return (json 500 (failure "Error updating status")), [stored]).
Proof.
  destruct (review_update_rejections env_b
              (post [("id", "zzz"); ("status", "approved")]) [stored]) as [[_ H] _].
  exact (H "zzz" "approved" eq_refl eq_refl eq_refl).
Defined.

(** X12 at feedback "Good work" for [stored]. *)
Lemma submit_feedback_then_get_feedback_witness :
  Server.get_feedback env_a
    (post [("fileId", "65f1c0ffee0123456789abcd"); ("passkey", "abc123")])
    (snd (Server.submit_feedback env_b
            (post [("id", "65f1c0ffee0123456789abcd"); ("feedback", "Good work")])
            [stored])) =
    (Return (feedback_reply "Good work"),
     snd (Server.submit_feedback env_b
            (post [("id", "65f1c0ffee0123456789abcd"); ("feedback", "Good work")])
            [stored])).
Proof.
  exact (submit_feedback_then_get_feedback env_b env_a
           (post [("id", "65f1c0ffee0123456789abcd"); ("feedback", "Good work")])
           (post [("fileId", "65f1c0ffee0123456789abcd"); ("passkey", "abc123")])
           "65f1c0ffee0123456789abcd" "Good work" oid_a stored [stored]
           eq_refl eq_refl oid_a_text stored_found eq_refl eq_refl).
Defined.

(** X13 at status "approved" for [stored]. *)
Lemma update_status_then_get_files_witness :
  ∃ l1 l2,
    [stored] = (l1 ++ stored :: l2)%list ∧
    Server.get_files (post [])
      (snd (Server.update_status env_b
              (post [("id", "65f1c0ffee0123456789abcd"); ("status", "approved")])
              [stored])) =
      (Return (files_reply
                 (map Server.file_summary l1 ++
                  Server.file_summary (set_status "approved" stored) ::
                  map Server.file_summary l2)%list),
       snd (Server.update_status env_b
              (post [("id", "65f1c0ffee0123456789abcd"); ("status", "approved")])
              [stored])) ∧
    member "status" (Server.file_summary (set_status "approved" stored)) =
      Some (JStr "approved") ∧
    ∀ k, k ≠ "status" →
         member k (Server.file_summary (set_status "approved" stored)) =
         member k (Server.file_summary stored).
Proof.
  exact (update_status_then_get_files env_b
           (post [("id", "65f1c0ffee0123456789abcd"); ("status", "approved")])
           (post []) "65f1c0ffee0123456789abcd" "approved" oid_a stored [stored]
           eq_refl eq_refl oid_a_text stored_found).
Defined.

(** X14 at an upload without a file whose passkey is taken. *)
Lemma category_submit_form_rejections_witness :
  dispatch (Part001.app env_b)
    (fetch POST ["submit-form"] [("passkey", "abc123"); ("category", "CS")])
    [stored_cs] =
    (Return (json 400 (failure "No PDF file uploaded")), [stored_cs]).
Proof.
  assert (Hpdf : ∀ f, http_file (fetch POST ["submit-form"]
                                   [("passkey", "abc123"); ("category", "CS")]) = Some f →
                      mimetype f = "application/pdf") by (intros f [=]).
  destruct (category_submit_form_rejections env_b
              (fetch POST ["submit-form"] [("passkey", "abc123"); ("category", "CS")])
              [stored_cs] eq_refl eq_refl Hpdf) as (_ & _ & H).
  destruct H as [Hnofile _]; [by eexists|by eexists|].
  exact (Hnofile eq_refl).
Defined.

(** X15 at a second upload, category "EEE". *)
Lemma category_upload_then_get_files_witness :
  Part001.get_files (post [])
    (snd (dispatch (Part001.app env_b)
            (upload resume [("passkey", "xyz789"); ("category", "EEE")]) [stored_cs])) =
    (Return (files_reply
               (map Part001.file_summary [stored_cs] ++
                [JObj [("_id", JStr (toHexString (generatedId env_b)));
                       ("filename", JStr (originalname resume));
                       ("status", JStr "under_processing");
                       ("passkey", JStr "xyz789");
                       ("feedback", JNull);
                       ("category", JStr "EEE");
                       ("uploadDate", JDate (now env_b))]])%list),
     snd (dispatch (Part001.app env_b)
            (upload resume [("passkey", "xyz789"); ("category", "EEE")]) [stored_cs])).
Proof.
  exact (category_upload_then_get_files env_b
           (upload resume [("passkey", "xyz789"); ("category", "EEE")])
           resume "xyz789" "EEE" [stored_cs]
           eq_refl eq_refl eq_refl eq_refl eq_refl eq_refl
           stored_cs_passkeys_fresh stored_cs_ids_fresh (post [])).
Defined.

(** X16 at the id of [stored_cs]. *)
Lemma delete_file_outcome_witness :
  ∃ l1 l2, [stored_cs] = (l1 ++ stored_cs :: l2)%list ∧
           Forall (λ d', _id d' ≠ oid_a) l1 ∧
           dispatch (Part001.app env_b)
             (fetch DELETE ["delete-file"; "65f1c0ffee0123456789abcd"] []) [stored_cs] =
             (Return (json 200 (success "File deleted")), (l1 ++ l2)%list).
Proof.
  assert (Hx : "65f1c0ffee0123456789abcd" ≠ "") by discriminate.
  destruct (delete_file_outcome env_b
              (fetch DELETE ["delete-file"; "65f1c0ffee0123456789abcd"] [])
              "65f1c0ffee0123456789abcd" [stored_cs] eq_refl eq_refl Hx) as [_ H].
  destruct (H oid_a oid_a_text) as [_ Hd].
  exact (Hd stored_cs stored_cs_found).
Defined.

(** X17 at the id of [stored_cs]. *)
Lemma delete_then_not_found_witness :
  Forall (λ d, _id d ≠ oid_a)
    (snd (dispatch (Part001.app env_b)
            (fetch DELETE ["delete-file"; "65f1c0ffee0123456789abcd"] []) [stored_cs])).
Proof.
  assert (Hx : "65f1c0ffee0123456789abcd" ≠ "") by discriminate.
  assert (Hnd : NoDup (_id <$> [stored_cs])) by apply NoDup_singleton.
  exact (proj1 (delete_then_not_found env_b
                  (fetch DELETE ["delete-file"; "65f1c0ffee0123456789abcd"] [])
                  "65f1c0ffee0123456789abcd" oid_a [stored_cs]
                  eq_refl eq_refl Hx oid_a_text Hnd)).
Defined.

(** X18 at the collection holding [stored_cs]. *)
Lemma delete_all_files_outcome_witness :
  dispatch (Part003.app env_b) (fetch DELETE ["delete-all-files"] []) [stored_cs] =
    (Return (if decide ([stored_cs] = [])
             then json 404 (failure "No files to delete")
             else json 200 (success "All files deleted successfully")),
     []).
Proof.
  exact (proj1 (delete_all_files_outcome env_b
                  (fetch DELETE ["delete-all-files"] []) [stored_cs] eq_refl eq_refl)).
Defined.

(** X19 at the id and passkey of [stored_cs]. *)
Lemma delete_file_passkey_outcome_witness :
  ∃ l1 l2, [stored_cs] = (l1 ++ stored_cs :: l2)%list ∧
           Forall (λ d', _id d' ≠ oid_a) l1 ∧
           Part003.delete_file_passkey env_b
             {| params := [("id", "65f1c0ffee0123456789abcd")];
                body := [("passkey", "abc123")]; file := None |} [stored_cs] =
             (Return (json 200 (success "File deleted successfully")), (l1 ++ l2)%list).
Proof.
  destruct (delete_file_passkey_outcome env_b
              {| params := [("id", "65f1c0ffee0123456789abcd")];
                 body := [("passkey", "abc123")]; file := None |} [stored_cs]) as [_ H].
  destruct (H "abc123" "65f1c0ffee0123456789abcd" eq_refl eq_refl) as [_ Ho].
  destruct (Ho oid_a oid_a_text) as [_ Hd].
  destruct (Hd stored_cs stored_cs_found) as [_ Hdel].
  exact (Hdel eq_refl).
Defined.
